(** * A resilient Strapi client: [src/lib/strapi.ts]

    Shallow embedding of the four exported operations of the module
    ([fetchStrapi], [fetchStrapiSingle], [downloadStrapiImage],
    [getStrapiMedia]) together with the part of the JavaScript platform they
    touch: the console, [fetch], [new URL], dynamic [import], [path.join] and
    the synchronous [fs] calls.

    An [async] function is a state transformer over a [World] that ends in a
    [Completion]: either the promise resolves ([Returned]) or it rejects
    ([Thrown]).  What the outside world answers (the network, the URL parser,
    the file system permissions) is not decided by the module: it is a
    parameter, and the theorems quantify over it.  Every awaited platform
    operation is taken to settle: the network answers after a finite delay or
    fails, and only the order of that delay and the abort signal matters.

    Parsed response bodies are typed by the module's own TypeScript
    interfaces, as the source declares them. *)

From Stdlib Require Import String Ascii NArith List Bool Lia.
From stdpp Require Import base option gmap strings list pretty.

Local Open Scope string_scope.
Local Open Scope N_scope.

(** ** JavaScript values used by the module *)

(** An [Error] object: its [name] and its [message]. *)
Record JsError := mkError { err_name : string; err_message : string }.

(** [new Error(message)] *)
Definition Error (message : string) : JsError := mkError "Error" message.

(** How an awaited operation, or a whole [async] call, ends. *)
Inductive Completion (A : Type) : Type :=
| Returned (a : A)
| Thrown (e : JsError).
Arguments Returned {A} a.
Arguments Thrown {A} e.

(** JavaScript truthiness of a [string | undefined | null]: absent and the
    empty string are falsy, every other string is truthy. *)
Definition truthy (s : option string) : bool :=
  match s with
  | Some (String _ _) => true
  | Some EmptyString => false
  | None => false
  end.

(** A template literal placeholder [${s}] for [s : string | undefined]. *)
Definition interpolate (s : option string) : string :=
  match s with
  | Some v => v
  | None => "undefined"
  end.

(** [s.startsWith(p)] *)
Definition startsWith (s p : string) : bool := String.prefix p s.

(** [s.split(sep)] for a one-character separator: never empty,
    [[""]] on the empty string. *)
Fixpoint split (sep : ascii) (s : string) : list string :=
  match s with
  | EmptyString => [EmptyString]
  | String c rest =>
      if Ascii.eqb c sep then EmptyString :: split sep rest
      else match split sep rest with
           | piece :: pieces => String c piece :: pieces
           | [] => [String c EmptyString]
           end
  end.

(** [a.pop()]: the last element, [undefined] on the empty array. *)
Definition pop (a : list string) : option string := last a.

(** Values of type [unknown] that the module never inspects. *)
#[warnings="-register-all"]
Inductive Json : Type :=
| JNull
| JBool (b : bool)
| JNumber (literal : string)
| JString (s : string)
| JArray (items : list Json)
| JObject (fields : list (string * Json)).

(** ** The module's configuration: [import.meta.env] *)

Record ImportMetaEnv := {
  PUBLIC_STRAPI_URL : option string;
  STRAPI_API_TOKEN : option string;
  DEV : bool;
  PROD : bool;
  MODE : string
}.

(** ** TypeScript interfaces *)

Record StrapiImageFormat := {
  fmt_url : string;
  fmt_width : N;
  fmt_height : N
}.

Record StrapiImageData := {
  img_id : N;
  img_url : string;
  img_alternativeText : option string;
  img_width : N;
  img_height : N;
  img_formats : option (gmap string StrapiImageFormat)
}.

Record StrapiImage := { image_data : option StrapiImageData }.

Record Pagination := {
  page : N;
  pageSize : N;
  pageCount : N;
  total : N
}.

Record Meta := { pagination : option Pagination }.

Record StrapiResponse (T : Type) := {
  data : list T;
  meta : Meta
}.
Arguments data {T} _.
Arguments meta {T} _.

Record HeroSection := {
  heroTitle : string;
  heroSubtitle : string;
  heroImage : StrapiImage;
  primaryCtaText : option string;
  primaryCtaLink : option string;
  secondaryCtaText : option string;
  secondaryCtaLink : option string
}.

Record HomepageAttributes := {
  heroSection : HeroSection;
  hp_createdAt : option string;
  hp_updatedAt : option string;
  hp_publishedAt : option string
}.

Record HomepageData := {
  hp_id : N;
  hp_attributes : HomepageAttributes
}.

Record HomepageResponse := {
  hp_data : option HomepageData;
  hp_meta : option (gmap string Json)
}.

(** The two literals the fetchers fall back to:
    [{ data: [], meta: {} }] and [{ data: null, meta: {} }]. *)
Definition emptyCollection {T : Type} : StrapiResponse T :=
  {| data := []; meta := {| pagination := None |} |}.

Definition nullSingle : HomepageResponse :=
  {| hp_data := None; hp_meta := Some ∅ |}.

(** ** The world an [async] call runs in *)

Inductive Level := LevelLog | LevelWarn | LevelError.

Record ConsoleEntry := {
  level : Level;
  text : string;
  detail : option JsError
}.

(** One call of [fetch]: the URL, the [headers] object and the delay of the
    [AbortSignal.timeout] passed as [signal], if any. *)
Record Request := {
  req_url : string;
  req_headers : gmap string string;
  req_timeout : option N
}.

Record World := {
  console : list ConsoleEntry;
  requests : list Request;
  fs_dirs : gset string;
  fs_files : gmap string (list Byte.byte)
}.

Definition with_console (e : ConsoleEntry) (w : World) : World :=
  {| console := console w ++ [e]; requests := requests w;
     fs_dirs := fs_dirs w; fs_files := fs_files w |}.

Definition with_request (r : Request) (w : World) : World :=
  {| console := console w; requests := requests w ++ [r];
     fs_dirs := fs_dirs w; fs_files := fs_files w |}.

Definition with_dirs (d : gset string) (w : World) : World :=
  {| console := console w; requests := requests w;
     fs_dirs := d ∪ fs_dirs w; fs_files := fs_files w |}.

Definition with_file (p : string) (b : list Byte.byte) (w : World) : World :=
  {| console := console w; requests := requests w;
     fs_dirs := fs_dirs w; fs_files := <[p := b]> (fs_files w) |}.

(** ** The [async] monad *)

Definition Async (A : Type) : Type := World -> Completion A * World.

#[global] Instance async_ret : MRet Async :=
  λ A (a : A) (w : World), (Returned a, w).

#[global] Instance async_bind : MBind Async :=
  λ A B (k : A -> Async B) (m : Async A) (w : World),
    match m w with
    | (Returned a, w') => k a w'
    | (Thrown e, w') => (Thrown e, w')
    end.

(** [throw e] *)
Definition throw {A : Type} (e : JsError) : Async A :=
  λ w, (Thrown e, w).

(** [try { body } catch (error) { handler }] *)
Definition try_catch {A : Type} (body : Async A) (handler : JsError -> Async A)
  : Async A :=
  λ w, match body w with
       | (Returned a, w') => (Returned a, w')
       | (Thrown e, w') => handler e w'
       end.

(** [await p] for a promise whose settlement is already decided. *)
Definition await {A : Type} (p : Completion A) : Async A :=
  λ w, (p, w).

(** [if (c) { body }] with no [else]. *)
Definition when (c : bool) (body : Async unit) : Async unit :=
  if c then body else mret tt.

Definition console_log (msg : string) : Async unit :=
  λ w, (Returned tt, with_console {| level := LevelLog; text := msg; detail := None |} w).

Definition console_warn (msg : string) : Async unit :=
  λ w, (Returned tt, with_console {| level := LevelWarn; text := msg; detail := None |} w).

(** [console.error(msg, error)] *)
Definition console_error (msg : string) (error : JsError) : Async unit :=
  λ w, (Returned tt,
        with_console {| level := LevelError; text := msg; detail := Some error |} w).

(** ** The network *)

Record Response (J : Type) := {
  status : N;
  statusText : string;
  json : Completion J;
  arrayBuffer : Completion (list Byte.byte)
}.
Arguments status {J} _.
Arguments statusText {J} _.
Arguments json {J} _.
Arguments arrayBuffer {J} _.

(** [response.ok]: the status is in the range 200-299. *)
Definition ok {J : Type} (r : Response J) : bool :=
  (200 <=? status r) && (status r <=? 299).

(** What the network does with a request: the connection fails, or a
    response arrives after [elapsed_ms] milliseconds. *)
Inductive NetBehaviour (J : Type) : Type :=
| NetFails (e : JsError)
| NetResponds (elapsed_ms : N) (r : Response J).
Arguments NetFails {J} e.
Arguments NetResponds {J} elapsed_ms r.

Definition Network (J : Type) : Type := Request -> NetBehaviour J.

(** The rejection reason of a request aborted by [AbortSignal.timeout]. *)
Definition TimeoutError : JsError :=
  mkError "TimeoutError" "The operation was aborted due to timeout".

(** [fetch(url, { headers, signal })]: the call is recorded, then the promise
    rejects when the connection fails or when the signal fires before the
    response, and otherwise resolves with the response. *)
Definition fetch {J : Type} (net : Network J) (url : string)
    (headers : gmap string string) (signal : option N) : Async (Response J) :=
  λ w,
    let rq := {| req_url := url; req_headers := headers; req_timeout := signal |} in
    let w' := with_request rq w in
    match net rq with
    | NetFails e => (Thrown e, w')
    | NetResponds elapsed r =>
        match signal with
        | Some limit =>
            if limit <=? elapsed then (Thrown TimeoutError, w') else (Returned r, w')
        | None => (Returned r, w')
        end
    end.

(** ** Node: URL parsing, module loading, paths and the file system *)

(** A directory or a file of that name exists. *)
Definition path_exists (w : World) (p : string) : bool :=
  bool_decide (p ∈ fs_dirs w) || bool_decide (is_Some (fs_files w !! p)).

Record Platform := {
  (** [new URL(s).pathname]; the constructor throws on an invalid URL *)
  url_pathname : string -> Completion string;
  (** [await import(name)] rejects when the module cannot be loaded *)
  import_error : string -> option JsError;
  (** [process.cwd()] *)
  cwd : string;
  (** [path.join(...segments)] *)
  path_join : list string -> string;
  (** the missing ancestors [mkdirSync] creates with [recursive: true] *)
  path_ancestors : string -> gset string;
  (** the error [fs.mkdirSync(p)] fails with, if it fails *)
  mkdir_error : string -> option JsError;
  (** the error [fs.writeFileSync(p, _)] fails with, if it fails *)
  write_error : string -> option JsError
}.

Section Node.
Context (pf : Platform).

Definition new_URL_pathname (s : string) : Async string :=
  await (url_pathname pf s).

Definition import (name : string) : Async unit :=
  match import_error pf name with
  | Some e => throw e
  | None => mret tt
  end.

(** [fs.existsSync(p)] *)
Definition existsSync (p : string) : Async bool :=
  λ w, (Returned (path_exists w p), w).

(** [fs.mkdirSync(p, { recursive })] *)
Definition mkdirSync (p : string) (recursive : bool) : Async unit :=
  λ w, match mkdir_error pf p with
       | Some e => (Thrown e, w)
       | None =>
           (Returned tt,
            with_dirs ({[ p ]} ∪ (if recursive then path_ancestors pf p else ∅)) w)
       end.

(** [fs.writeFileSync(p, buffer)]: creates the file or replaces its content. *)
Definition writeFileSync (p : string) (buffer : list Byte.byte) : Async unit :=
  λ w, match write_error pf p with
       | Some e => (Thrown e, w)
       | None => (Returned tt, with_file p buffer w)
       end.
End Node.

(** ** The module *)

Section Client.
Context (env : ImportMetaEnv).

Definition STRAPI_URL : option string := PUBLIC_STRAPI_URL env.
Definition STRAPI_TOKEN : option string := STRAPI_API_TOKEN env.

Definition fetchStrapi {T : Type} (net : Network (StrapiResponse T))
    (endpoint : string) : Async (StrapiResponse T) :=
  (* If no Strapi URL configured, return empty data immediately *)
  if negb (truthy STRAPI_URL) then
    when (DEV env)
      (console_log ("ℹ️  Strapi not configured - returning empty data for " +:+ endpoint));;
    mret {| data := []; meta := {| pagination := None |} |}
  else
    let url :=
      interpolate STRAPI_URL +:+ "/api/" +:+ endpoint +:+
      "?populate[image][fields][0]=url&populate[image][fields][1]=alternativeText&populate[image][fields][2]=formats&populate[cuisine][fields][0]=name" in
    try_catch
      (let headers : gmap string string :=
         {[ "Content-Type" := "application/json" ]} in
       (* Add authentication if token is available *)
       let headers :=
         if truthy STRAPI_TOKEN
         then <[ "Authorization" := "Bearer " +:+ interpolate STRAPI_TOKEN ]> headers
         else headers in
       response ← fetch net url headers (Some 10000);
       (if negb (ok response) then
          let errorMessage := "Failed to fetch from Strapi: " +:+ statusText response in
          let errorMessage :=
            if status response =? 404 then "Endpoint not found: " +:+ endpoint
            else if status response =? 401 then
              "Authentication required. Please check your API token."
            else if status response =? 403 then
              "Access forbidden. Your API token may not have the required permissions."
            else if 500 <=? status response then
              "Strapi server error. Please try again later."
            else errorMessage in
          throw (Error errorMessage)
        else mret tt);;
       data' ← await (json response);
       when (DEV env)
         (console_log ("✓ Successfully fetched " +:+ pretty (length (data data'))
                       +:+ " items from " +:+ endpoint));;
       mret data')
      (λ error,
         (* Log detailed error in development, minimal in production *)
         (if DEV env then
            console_error ("❌ Strapi fetch error for " +:+ endpoint +:+ ":") error;;
            console_log "→ Returning empty data - pages will use fallback content"
          else
            console_log ("Using fallback content for " +:+ endpoint +:+ " (Strapi unavailable)"));;
         (* Return empty data instead of throwing - allows graceful fallback *)
         mret {| data := []; meta := {| pagination := None |} |}).

(** Fetch single type (like homepage) *)
Definition fetchStrapiSingle (net : Network HomepageResponse)
    (endpoint : string) : Async HomepageResponse :=
  (* If no Strapi URL configured, return null data immediately *)
  if negb (truthy STRAPI_URL) then
    when (DEV env)
      (console_log ("ℹ️  Strapi not configured - returning null data for " +:+ endpoint));;
    mret {| hp_data := None; hp_meta := Some ∅ |}
  else
    let url :=
      interpolate STRAPI_URL +:+ "/api/" +:+ endpoint +:+
      "?populate[heroSection][populate]=heroImage" in
    try_catch
      (let headers : gmap string string :=
         {[ "Content-Type" := "application/json" ]} in
       let headers :=
         if truthy STRAPI_TOKEN
         then <[ "Authorization" := "Bearer " +:+ interpolate STRAPI_TOKEN ]> headers
         else headers in
       response ← fetch net url headers (Some 10000);
       (if negb (ok response) then
          let errorMessage :=
            "Failed to fetch " +:+ endpoint +:+ ": " +:+ statusText response in
          let errorMessage :=
            if status response =? 404 then "Endpoint not found: " +:+ endpoint
            else if status response =? 401 then
              "Authentication required. Please check your API token."
            else if status response =? 403 then
              "Access forbidden. Your API token may not have the required permissions."
            else if 500 <=? status response then
              "Strapi server error. Please try again later."
            else errorMessage in
          throw (Error errorMessage)
        else mret tt);;
       data' ← await (json response);
       when (DEV env) (console_log ("✓ Successfully fetched " +:+ endpoint));;
       mret data')
      (λ error,
         (if DEV env then
            console_error ("❌ Strapi fetch error for " +:+ endpoint +:+ ":") error;;
            console_log "→ Returning null data - pages will use fallback content"
          else
            console_log ("Using fallback content for " +:+ endpoint +:+ " (Strapi unavailable)"));;
         (* Return null data instead of throwing - allows graceful fallback *)
         mret {| hp_data := None; hp_meta := Some ∅ |}).

Definition getStrapiMedia (url : option string) : option string :=
  if negb (truthy url) then None
  else
    let url := default "" url in
    (* If the URL is already absolute, return it *)
    if startsWith url "http" then Some url
    (* If no Strapi URL configured, return null *)
    else if negb (truthy STRAPI_URL) then None
    (* Otherwise, prepend the Strapi URL *)
    else Some (interpolate STRAPI_URL +:+ url).

(** Download image from Strapi and save it locally during build *)
Definition downloadStrapiImage {J : Type} (pf : Platform) (net : Network J)
    (url : option string) : Async (option string) :=
  if negb (truthy url) then
    when (DEV env) (console_log "ℹ️  No image URL provided, returning null");;
    mret None
  (* In development mode, use the full Strapi URL directly *)
  else if DEV env then mret (getStrapiMedia url)
  else
    let u := default "" url in
    (* If it's a relative URL, make it absolute *)
    let fullUrl := if startsWith u "http" then u else interpolate STRAPI_URL +:+ u in
    (* In build mode, download and cache images locally *)
    if PROD env || String.eqb (MODE env) "production" then
      try_catch
        ((* Extract filename from URL *)
         urlPath ← new_URL_pathname pf fullUrl;
         let filename := pop (split "/" urlPath) in
         if negb (truthy filename) then
           console_warn ("⚠️  Could not extract filename from URL: " +:+ fullUrl);;
           mret (Some fullUrl) (* Fallback to remote URL *)
         else
           let filename := default "" filename in
           (* Download the image *)
           response ← fetch net fullUrl ∅ None;
           if negb (ok response) then
             console_warn ("⚠️  Failed to download image (" +:+ pretty (status response)
                           +:+ "): " +:+ fullUrl);;
             mret (Some fullUrl) (* Fallback to remote URL *)
           else
             (* Get the image buffer *)
             buffer ← await (arrayBuffer response);
             (* Create uploads directory if it doesn't exist *)
             import pf "fs";;
             import pf "path";;
             let uploadsDir := path_join pf [cwd pf; "public"; "uploads"] in
             exists_ ← existsSync uploadsDir;
             when (negb exists_) (mkdirSync pf uploadsDir true);;
             (* Save the image *)
             let localPath := path_join pf [uploadsDir; filename] in
             writeFileSync pf localPath buffer;;
             console_log ("✓ Downloaded image: " +:+ filename);;
             (* Return the local path (relative to public folder) *)
             mret (Some ("/uploads/" +:+ filename)))
        (λ error,
           console_error ("❌ Error downloading image " +:+ fullUrl +:+ ":") error;;
           (* Fallback to remote URL on error *)
           mret (Some fullUrl))
    else
      (* Should not reach here, but return full URL as fallback *)
      mret (getStrapiMedia url).
End Client.

(** ** The module's top-level statements *)

(** The escape [\n] of a JavaScript string literal. *)
Definition newline : string := String (ascii_of_N 10) EmptyString.

(** Log configuration status: what runs once, when the module is loaded. *)
Definition module_load (env : ImportMetaEnv) : Async unit :=
  if negb (truthy (STRAPI_URL env)) then
    console_warn
      (("⚠️  PUBLIC_STRAPI_URL not set - using placeholder content for preview." +:+ newline) +:+
       ("Set PUBLIC_STRAPI_URL in your .env file to fetch real content from Strapi." +:+ newline) +:+
       "Example: PUBLIC_STRAPI_URL=https://your-strapi-instance.com")
  else
    console_log ("✓ Strapi URL configured: " +:+ interpolate (STRAPI_URL env)).

(** ** Vocabulary of the statements *)

(** [issued w w' rq]: between [w] and [w'] exactly one call of [fetch] was
    made, and it carried [rq]. *)
Definition issued (w w' : World) (rq : Request) : Prop :=
  requests w' = (requests w ++ [rq])%list.

(** No call of [fetch] between [w] and [w']. *)
Definition no_network (w w' : World) : Prop :=
  requests w' = requests w.

(** No directory created and no file written between [w] and [w']. *)
Definition no_filesystem_write (w w' : World) : Prop :=
  fs_dirs w' = fs_dirs w ∧ fs_files w' = fs_files w.

(** A content request fails when the connection fails, when the answer takes
    [limit] milliseconds or more, when the status is not in 200-299, or when
    reading the body as JSON throws. *)
Definition exchange_failed {J : Type} (limit : N) (b : NetBehaviour J) : bool :=
  match b with
  | NetFails _ => true
  | NetResponds elapsed r =>
      (limit <=? elapsed) || negb (ok r) ||
      match json r with
      | Thrown _ => true
      | Returned _ => false
      end
  end.

(** The URL the production branch of [downloadStrapiImage] works on:
    [fullUrl] in the source. *)
Definition resolved (env : ImportMetaEnv) (u : string) : string :=
  if startsWith u "http" then u else interpolate (STRAPI_URL env) +:+ u.

(** [s] contains the character [c]. *)
Fixpoint has_char (c : ascii) (s : string) : bool :=
  match s with
  | EmptyString => false
  | String a rest => Ascii.eqb a c || has_char c rest
  end.

(** The directory [downloadStrapiImage] stores into, and the file it stores
    [filename] at: [uploadsDir] and [localPath] in the source. *)
Definition uploads_dir (pf : Platform) : string :=
  path_join pf [cwd pf; "public"; "uploads"].

Definition local_path (pf : Platform) (filename : string) : string :=
  path_join pf [uploads_dir pf; filename].

(** The same configuration with another API token. *)
Definition with_token (tok : option string) (env : ImportMetaEnv) : ImportMetaEnv :=
  {| PUBLIC_STRAPI_URL := PUBLIC_STRAPI_URL env;
     STRAPI_API_TOKEN := tok;
     DEV := DEV env; PROD := PROD env; MODE := MODE env |}.

(** A network whose answer depends on the requested URL only. *)
Definition header_blind {J : Type} (net : Network J) : Prop :=
  ∀ rq rq', req_url rq = req_url rq' -> net rq = net rq'.

(** The production branch of [downloadStrapiImage] is the one taken. *)
Definition production_build (env : ImportMetaEnv) : bool :=
  negb (DEV env) && (PROD env || String.eqb (MODE env) "production").

(** The one request [downloadStrapiImage] makes for the input [u]. *)
Definition image_request (env : ImportMetaEnv) (u : string) : Request :=
  {| req_url := resolved env u; req_headers := ∅; req_timeout := None |}.

(** The image cannot be had from the network: the connection fails, the
    status is not in 200-299, or reading the body throws. *)
Definition image_unavailable {J : Type} (b : NetBehaviour J) : bool :=
  match b with
  | NetFails _ => true
  | NetResponds _ r =>
      negb (ok r) ||
      match arrayBuffer r with
      | Thrown _ => true
      | Returned _ => false
      end
  end.

(** A production download of [u] that gets as far as the file system: the
    URL parses, its path ends in the non-empty segment [filename], the image
    arrives as [bytes], and both Node modules load. *)
Definition reaches_disk {J : Type} (env : ImportMetaEnv) (pf : Platform)
    (net : Network J) (u filename : string) (bytes : list Byte.byte) : Prop :=
  production_build env = true ∧
  u ≠ "" ∧
  (∃ urlPath, url_pathname pf (resolved env u) = Returned urlPath ∧
              pop (split "/" urlPath) = Some filename) ∧
  filename ≠ "" ∧
  (∃ elapsed r, net (image_request env u) = NetResponds elapsed r ∧
                ok r = true ∧ arrayBuffer r = Returned bytes) ∧
  import_error pf "fs" = None ∧
  import_error pf "path" = None.

(** *** The specification's notion of an absolute URL

    The specification calls a URL absolute when it is scheme-qualified.
    Following RFC 3986, a scheme is a letter followed by letters, digits,
    [+], [-] or [.], and it ends at the first colon. *)

Definition is_alpha (c : ascii) : bool :=
  let n := N_of_ascii c in
  ((65 <=? n) && (n <=? 90)) || ((97 <=? n) && (n <=? 122)).

Definition is_scheme_char (c : ascii) : bool :=
  let n := N_of_ascii c in
  is_alpha c || ((48 <=? n) && (n <=? 57)) ||
  (n =? 43) || (n =? 45) || (n =? 46).

Fixpoint scheme_rest (s : string) : bool :=
  match s with
  | EmptyString => false
  | String c rest =>
      if Ascii.eqb c ":" then true
      else if is_scheme_char c then scheme_rest rest
      else false
  end.

Definition spec_scheme_qualified (s : string) : bool :=
  match s with
  | EmptyString => false
  | String c rest => is_alpha c && scheme_rest rest
  end.

(** ** Sample configurations and platforms *)

Definition cmsProduction : ImportMetaEnv :=
  {| PUBLIC_STRAPI_URL := Some "https://cms.example.com";
     STRAPI_API_TOKEN := Some "s3cr3t";
     DEV := false; PROD := true; MODE := "production" |}.

Definition cmsDevelopment : ImportMetaEnv :=
  {| PUBLIC_STRAPI_URL := Some "https://cms.example.com";
     STRAPI_API_TOKEN := None;
     DEV := true; PROD := false; MODE := "development" |}.

Definition unconfiguredProduction : ImportMetaEnv :=
  {| PUBLIC_STRAPI_URL := None;
     STRAPI_API_TOKEN := None;
     DEV := false; PROD := true; MODE := "production" |}.

(** A base URL written without its scheme. *)
Definition schemelessProduction : ImportMetaEnv :=
  {| PUBLIC_STRAPI_URL := Some "localhost:1337";
     STRAPI_API_TOKEN := None;
     DEV := false; PROD := true; MODE := "production" |}.

Definition emptyWorld : World :=
  {| console := []; requests := []; fs_dirs := ∅; fs_files := ∅ |}.

Definition TypeError (message : string) : JsError := mkError "TypeError" message.

(** A stand-in for the URL parser, enough for the examples: it accepts
    [http://] and [https://] URLs, rejects everything else, and returns what
    lies between the authority and the query or fragment. *)
Fixpoint strip_prefix (p s : string) : option string :=
  match p, s with
  | EmptyString, _ => Some s
  | String a p', String b s' => if Ascii.eqb a b then strip_prefix p' s' else None
  | String _ _, EmptyString => None
  end.

Fixpoint skip_authority (s : string) : string :=
  match s with
  | EmptyString => "/"
  | String c rest => if Ascii.eqb c "/" then s else skip_authority rest
  end.

Fixpoint until_query (s : string) : string :=
  match s with
  | EmptyString => EmptyString
  | String c rest =>
      if Ascii.eqb c "?" || Ascii.eqb c "#" then EmptyString
      else String c (until_query rest)
  end.

Definition sample_url_pathname (s : string) : Completion string :=
  match strip_prefix "https://" s, strip_prefix "http://" s with
  | Some rest, _ | None, Some rest => Returned (until_query (skip_authority rest))
  | None, None => Thrown (TypeError "Invalid URL")
  end.

Definition samplePlatform : Platform :=
  {| url_pathname := sample_url_pathname;
     import_error := λ _, None;
     cwd := "/srv/site";
     path_join := String.concat "/";
     path_ancestors := λ _, {[ "/srv"; "/srv/site"; "/srv/site/public" ]};
     mkdir_error := λ _, None;
     write_error := λ _, None |}.

Definition sampleBytes : list Byte.byte := [Byte.xff; Byte.xd8; Byte.xff].

(** A backend that is up: every request is answered in 120 ms with 200. *)
Definition reachable {J : Type} (body : Completion J) : Network J :=
  λ _, NetResponds 120
         {| status := 200; statusText := "OK"; json := body;
            arrayBuffer := Returned sampleBytes |}.

(** A backend that answers every request with the given error status. *)
Definition failing {J : Type} (code : N) (reason : string) : Network J :=
  λ _, NetResponds 35
         {| status := code; statusText := reason;
            json := Thrown (mkError "SyntaxError" "Unexpected token < in JSON");
            arrayBuffer := Thrown (TypeError "body unusable") |}.

(** A backend that answers, but only after 12 seconds. *)
Definition slow {J : Type} (body : Completion J) : Network J :=
  λ _, NetResponds 12000
         {| status := 200; statusText := "OK"; json := body;
            arrayBuffer := Returned sampleBytes |}.

(** A backend that cannot be reached. *)
Definition unreachable {J : Type} : Network J :=
  λ _, NetFails (TypeError "fetch failed").

(** A backend that serves each image under its own content: the bytes are
    the characters of the requested URL. *)
Definition echoing {J : Type} (body : Completion J) : Network J :=
  λ rq, NetResponds 80
          {| status := 200; statusText := "OK"; json := body;
             arrayBuffer := Returned (list_byte_of_string (req_url rq)) |}.



(** A mode that is neither development nor production. *)
Definition cmsStaging : ImportMetaEnv :=
  {| PUBLIC_STRAPI_URL := Some "https://cms.example.com";
     STRAPI_API_TOKEN := Some "s3cr3t";
     DEV := false; PROD := false; MODE := "staging" |}.

(** * Properties *)

Ltac async_unfold :=
  unfold new_URL_pathname, import, existsSync, mkdirSync, writeFileSync,
    try_catch, when, throw, await, fetch, console_log, console_warn,
    console_error, mbind, async_bind, mret, async_ret in *.

(** Case analysis on the innermost scrutinee first, so that every branch of
    the program is followed in the order the program takes it. *)
Ltac async_cases :=
  repeat match goal with
         | |- context [match ?x with _ => _ end] =>
             lazymatch x with
             | context [match _ with _ => _ end] => fail
             | _ => destruct x eqn:?; cbn [fst snd negb orb andb]
             end
         end.

Lemma issued_unique w w' rq1 rq2 :
  issued w w' rq1 -> issued w w' rq2 -> rq1 = rq2.
Proof.
  unfold issued. intros H1 H2. rewrite H1 in H2.
  apply app_inv_head in H2. congruence.
Qed.

Lemma no_network_not_issued w w' rq :
  no_network w w' -> issued w w' rq -> False.
Proof.
  unfold no_network, issued. intros H1 H2. rewrite H1 in H2.
  apply (f_equal length) in H2. rewrite length_app in H2. cbn in H2. lia.
Qed.

Lemma error_status_not_ok {J : Type} (r : Response J) :
  400 <= status r -> ok r = false.
Proof.
  intros Hs. unfold ok. apply andb_false_iff. right.
  apply N.leb_gt. lia.
Qed.

Lemma startsWith_app (b u p : string) :
  startsWith b p = true -> startsWith (b +:+ u) p = true.
Proof.
  unfold startsWith. revert p.
  induction b as [| c b IH]; intros p H.
  - destruct p; [| discriminate]. destruct ("" +:+ u); reflexivity.
  - change (String c b +:+ u) with (String c (b +:+ u)).
    destruct p as [| a p]; [reflexivity |].
    cbn [String.prefix] in *.
    destruct (ascii_dec a c); [auto | discriminate].
Qed.

Lemma path_exists_with_request rq w p :
  path_exists (with_request rq w) p = path_exists w p.
Proof. reflexivity. Qed.

Lemma truthy_nonempty (u : string) : u ≠ "" -> truthy (Some u) = true.
Proof. destruct u; [congruence | reflexivity]. Qed.

(** ** The content fetchers *)

Section Fetchers.
Context {T : Type} (env : ImportMetaEnv).
Context (net : Network (StrapiResponse T)) (netS : Network HomepageResponse).

(** What [fetchStrapi] computes on a configured backend: one request with
    the 10 second signal, and the parsed body or the empty collection. *)
Lemma fetchStrapi_configured endpoint w :
  truthy (STRAPI_URL env) = true ->
  ∃ rq, issued w (snd (fetchStrapi env net endpoint w)) rq ∧
        req_timeout rq = Some 10000 ∧
        fst (fetchStrapi env net endpoint w) =
          Returned (match net rq with
                    | NetFails _ => emptyCollection
                    | NetResponds elapsed r =>
                        if (10000 <=? elapsed) || negb (ok r) then emptyCollection
                        else match json r with
                             | Returned body => body
                             | Thrown _ => emptyCollection
                             end
                    end).
Proof.
  intros Hurl. unfold fetchStrapi. rewrite Hurl. cbn [negb].
  async_unfold. cbn beta iota.
  match goal with |- context [net ?r] => exists r end.
  unfold issued.
  destruct (net _) as [e | elapsed r]; cbn [fst snd].
  - destruct (DEV env); cbn; auto.
  - destruct (10000 <=? elapsed); cbn [orb].
    + destruct (DEV env); cbn; auto.
    + destruct (ok r); cbn [negb].
      * destruct (json r) as [body | e]; destruct (DEV env); cbn; auto.
      * destruct (DEV env); cbn; auto.
Qed.

Lemma fetchStrapiSingle_configured endpoint w :
  truthy (STRAPI_URL env) = true ->
  ∃ rq, issued w (snd (fetchStrapiSingle env netS endpoint w)) rq ∧
        req_timeout rq = Some 10000 ∧
        fst (fetchStrapiSingle env netS endpoint w) =
          Returned (match netS rq with
                    | NetFails _ => nullSingle
                    | NetResponds elapsed r =>
                        if (10000 <=? elapsed) || negb (ok r) then nullSingle
                        else match json r with
                             | Returned body => body
                             | Thrown _ => nullSingle
                             end
                    end).
Proof.
  intros Hurl. unfold fetchStrapiSingle. rewrite Hurl. cbn [negb].
  async_unfold. cbn beta iota.
  match goal with |- context [netS ?r] => exists r end.
  unfold issued.
  destruct (netS _) as [e | elapsed r]; cbn [fst snd].
  - destruct (DEV env); cbn; auto.
  - destruct (10000 <=? elapsed); cbn [orb].
    + destruct (DEV env); cbn; auto.
    + destruct (ok r); cbn [negb].
      * destruct (json r) as [body | e]; destruct (DEV env); cbn; auto.
      * destruct (DEV env); cbn; auto.
Qed.

(** Without a base URL both fetchers answer at once, whatever the network
    would have done. *)
Lemma fetchStrapi_unconfigured endpoint w :
  truthy (STRAPI_URL env) = false ->
  fst (fetchStrapi env net endpoint w) = Returned emptyCollection ∧
  no_network w (snd (fetchStrapi env net endpoint w)) ∧
  no_filesystem_write w (snd (fetchStrapi env net endpoint w)).
Proof.
  intros Hurl. unfold fetchStrapi. rewrite Hurl. cbn [negb].
  async_unfold. destruct (DEV env); cbn; repeat split.
Qed.

Lemma fetchStrapiSingle_unconfigured endpoint w :
  truthy (STRAPI_URL env) = false ->
  fst (fetchStrapiSingle env netS endpoint w) = Returned nullSingle ∧
  no_network w (snd (fetchStrapiSingle env netS endpoint w)) ∧
  no_filesystem_write w (snd (fetchStrapiSingle env netS endpoint w)).
Proof.
  intros Hurl. unfold fetchStrapiSingle. rewrite Hurl. cbn [negb].
  async_unfold. destruct (DEV env); cbn; repeat split.
Qed.

(** C1. [fetchStrapi] and [fetchStrapiSingle] never reject: whatever the
    network and the JSON parser do, the call returns a value; the one
    request it may issue carries the 10 second signal; and when that
    exchange fails (connection error, no answer within 10 seconds, a status
    outside 200-299, or a body whose parsing throws) the value is exactly
    [{ data: [], meta: {} }], respectively [{ data: null, meta: {} }]. *)
Theorem fetchers_never_raise_C1 endpoint w :
  (∃ v, fst (fetchStrapi env net endpoint w) = Returned v ∧
        ∀ rq, issued w (snd (fetchStrapi env net endpoint w)) rq ->
              req_timeout rq = Some 10000 ∧
              (exchange_failed 10000 (net rq) = true -> v = emptyCollection)) ∧
  (∃ v, fst (fetchStrapiSingle env netS endpoint w) = Returned v ∧
        ∀ rq, issued w (snd (fetchStrapiSingle env netS endpoint w)) rq ->
              req_timeout rq = Some 10000 ∧
              (exchange_failed 10000 (netS rq) = true -> v = nullSingle)).
Proof.
  destruct (truthy (STRAPI_URL env)) eqn:Hurl; split.
  - destruct (fetchStrapi_configured endpoint w Hurl) as (rq0 & Hrq0 & Ht & Hv).
    eexists; split; [exact Hv |].
    intros rq Hrq. rewrite (issued_unique _ _ _ _ Hrq Hrq0).
    split; [exact Ht |]. unfold exchange_failed.
    destruct (net rq0) as [e | elapsed r]; [reflexivity |].
    destruct ((10000 <=? elapsed) || negb (ok r)); [reflexivity |].
    destruct (json r); [discriminate | reflexivity].
  - destruct (fetchStrapiSingle_configured endpoint w Hurl) as (rq0 & Hrq0 & Ht & Hv).
    eexists; split; [exact Hv |].
    intros rq Hrq. rewrite (issued_unique _ _ _ _ Hrq Hrq0).
    split; [exact Ht |]. unfold exchange_failed.
    destruct (netS rq0) as [e | elapsed r]; [reflexivity |].
    destruct ((10000 <=? elapsed) || negb (ok r)); [reflexivity |].
    destruct (json r); [discriminate | reflexivity].
  - destruct (fetchStrapi_unconfigured endpoint w Hurl) as (Hv & Hn & _).
    eexists; split; [exact Hv |].
    intros rq Hrq. destruct (no_network_not_issued _ _ _ Hn Hrq).
  - destruct (fetchStrapiSingle_unconfigured endpoint w Hurl) as (Hv & Hn & _).
    eexists; split; [exact Hv |].
    intros rq Hrq. destruct (no_network_not_issued _ _ _ Hn Hrq).
Qed.

(** C2. With no base URL configured (absent or empty), for every endpoint
    name [fetchStrapi] returns [{ data: [], meta: {} }] (no items, no
    pagination) and [fetchStrapiSingle] returns [{ data: null, meta: {} }],
    and neither issues a network call, whatever the network is. *)
Theorem unconfigured_short_circuit_C2 endpoint w :
  truthy (STRAPI_URL env) = false ->
  (fst (fetchStrapi env net endpoint w)
     = Returned {| data := []; meta := {| pagination := None |} |} ∧
   no_network w (snd (fetchStrapi env net endpoint w))) ∧
  (fst (fetchStrapiSingle env netS endpoint w)
     = Returned {| hp_data := None; hp_meta := Some ∅ |} ∧
   no_network w (snd (fetchStrapiSingle env netS endpoint w))).
Proof.
  intros Hurl.
  destruct (fetchStrapi_unconfigured endpoint w Hurl) as (Hv & Hn & _).
  destruct (fetchStrapiSingle_unconfigured endpoint w Hurl) as (Hv' & Hn' & _).
  auto.
Qed.

(** C3. If the request [fetchStrapi] issued was answered with a status of
    400 or more, the result is [{ data: [], meta: {} }], whichever of the
    branches 404, 401, 403, 500 and above, or other chose the error message;
    likewise [fetchStrapiSingle] returns [{ data: null, meta: {} }]. *)
Theorem status_classification_is_cosmetic_C3 endpoint w :
  (∀ rq elapsed r,
     issued w (snd (fetchStrapi env net endpoint w)) rq ->
     net rq = NetResponds elapsed r -> 400 <= status r ->
     fst (fetchStrapi env net endpoint w) = Returned emptyCollection) ∧
  (∀ rq elapsed r,
     issued w (snd (fetchStrapiSingle env netS endpoint w)) rq ->
     netS rq = NetResponds elapsed r -> 400 <= status r ->
     fst (fetchStrapiSingle env netS endpoint w) = Returned nullSingle).
Proof.
  split; intros rq elapsed r Hrq Hnet Hs;
    destruct (truthy (STRAPI_URL env)) eqn:Hurl.
  - destruct (fetchStrapi_configured endpoint w Hurl) as (rq0 & Hrq0 & _ & Hv).
    rewrite Hv, <- (issued_unique _ _ _ _ Hrq Hrq0), Hnet.
    rewrite (error_status_not_ok r Hs), orb_true_r. reflexivity.
  - apply (fetchStrapi_unconfigured endpoint w Hurl).
  - destruct (fetchStrapiSingle_configured endpoint w Hurl) as (rq0 & Hrq0 & _ & Hv).
    rewrite Hv, <- (issued_unique _ _ _ _ Hrq Hrq0), Hnet.
    rewrite (error_status_not_ok r Hs), orb_true_r. reflexivity.
  - apply (fetchStrapiSingle_unconfigured endpoint w Hurl).
Qed.
End Fetchers.

(** ** The media URL resolver *)

Lemma startsWith_nonempty (u p : string) :
  p ≠ "" -> startsWith u p = true -> u ≠ "".
Proof. intros Hp H ->. destruct p; [congruence | discriminate]. Qed.

Section Media.
Context (env : ImportMetaEnv).

Lemma getStrapiMedia_absolute u :
  startsWith u "http" = true -> getStrapiMedia env (Some u) = Some u.
Proof.
  intros H. unfold getStrapiMedia.
  rewrite truthy_nonempty by (eapply startsWith_nonempty; [| exact H]; discriminate).
  cbn [negb from_option id]. rewrite H. reflexivity.
Qed.

Lemma getStrapiMedia_relative u :
  u ≠ "" -> startsWith u "http" = false -> truthy (STRAPI_URL env) = true ->
  getStrapiMedia env (Some u) = Some (interpolate (STRAPI_URL env) +:+ u).
Proof.
  intros Hu Hrel Hbase. unfold getStrapiMedia.
  rewrite (truthy_nonempty u Hu). cbn [negb from_option id].
  rewrite Hrel, Hbase. reflexivity.
Qed.

Lemma getStrapiMedia_unconfigured u :
  startsWith u "http" = false -> truthy (STRAPI_URL env) = false ->
  getStrapiMedia env (Some u) = None.
Proof.
  intros Hrel Hbase. unfold getStrapiMedia.
  destruct (truthy (Some u)); cbn [negb from_option id]; [| reflexivity].
  rewrite Hrel, Hbase. reflexivity.
Qed.

(** C5, as the code has it. [getStrapiMedia] is a total function with four
    cases: a null, absent or empty input gives [null]; an input that
    begins with the characters [http] is returned unchanged; any other
    input gives [null] when no base URL is configured; and otherwise the
    base URL followed by the input, as in
    [https://cms.example.com] + [/uploads/plate.jpg]. *)
Theorem getStrapiMedia_cases_C5 :
  getStrapiMedia env None = None ∧
  getStrapiMedia env (Some "") = None ∧
  (∀ u, startsWith u "http" = true -> getStrapiMedia env (Some u) = Some u) ∧
  (∀ u, startsWith u "http" = false -> truthy (STRAPI_URL env) = false ->
        getStrapiMedia env (Some u) = None) ∧
  (∀ u base, u ≠ "" -> startsWith u "http" = false ->
             STRAPI_URL env = Some base -> base ≠ "" ->
             getStrapiMedia env (Some u) = Some (base +:+ u)) ∧
  getStrapiMedia cmsProduction (Some "/uploads/plate.jpg")
    = Some "https://cms.example.com/uploads/plate.jpg".
Proof.
  repeat split.
  - apply getStrapiMedia_absolute.
  - apply getStrapiMedia_unconfigured.
  - intros u base Hu Hrel Hbase Hne.
    rewrite getStrapiMedia_relative; auto.
    + rewrite Hbase. reflexivity.
    + rewrite Hbase. apply truthy_nonempty, Hne.
Qed.

(** C8, as the code has it. An input beginning with [http] is a fixed point
    under every configuration, so it is never prefixed again; and
    [getStrapiMedia] is idempotent on every input as soon as the base URL,
    when one is configured, itself begins with [http]. *)
Theorem getStrapiMedia_idempotent_C8 :
  (∀ u, startsWith u "http" = true ->
        getStrapiMedia env (getStrapiMedia env (Some u)) = Some u) ∧
  ((truthy (STRAPI_URL env) = true ->
    startsWith (interpolate (STRAPI_URL env)) "http" = true) ->
   ∀ x, getStrapiMedia env (getStrapiMedia env x) = getStrapiMedia env x).
Proof.
  split.
  - intros u H. rewrite !getStrapiMedia_absolute by exact H. reflexivity.
  - intros Hbase x. unfold getStrapiMedia at 2 3.
    destruct (truthy x); cbn [negb]; [| reflexivity].
    destruct (startsWith (default "" x) "http") eqn:Habs.
    + apply getStrapiMedia_absolute, Habs.
    + destruct (truthy (STRAPI_URL env)) eqn:Hconf; cbn [negb]; [| reflexivity].
      apply getStrapiMedia_absolute, startsWith_app, Hbase. reflexivity.
Qed.
End Media.

(** ** The image cache *)

Section Images.
Context {J : Type} (env : ImportMetaEnv) (pf : Platform) (net : Network J).

(** [downloadStrapiImage] never rejects, and its value is [null], the
    value of [getStrapiMedia], the resolved URL, or a path under
    [/uploads/]. *)
Lemma downloadStrapiImage_returns url w :
  ∃ v, fst (downloadStrapiImage env pf net url w) = Returned v ∧
       (v = getStrapiMedia env url ∨
        v = Some (resolved env (default "" url)) ∨
        ∃ filename, v = Some ("/uploads/" +:+ filename)).
Proof.
  unfold downloadStrapiImage, resolved, getStrapiMedia. async_unfold.
  async_cases; eauto 10.
Qed.

(** It calls [fetch] at most once, on the resolved URL, with an empty
    [headers] object and no abort signal. *)
Lemma downloadStrapiImage_requests url w :
  no_network w (snd (downloadStrapiImage env pf net url w)) ∨
  issued w (snd (downloadStrapiImage env pf net url w))
    {| req_url := resolved env (default "" url); req_headers := ∅; req_timeout := None |}.
Proof.
  unfold downloadStrapiImage, resolved, no_network, issued. async_unfold.
  async_cases; cbn; auto.
Qed.

(** C7. In development mode [downloadStrapiImage url] returns exactly
    [getStrapiMedia url], for every input, and neither calls the network
    nor creates a directory or writes a file. *)
Theorem dev_mode_bypass_C7 url w :
  DEV env = true ->
  fst (downloadStrapiImage env pf net url w) = Returned (getStrapiMedia env url) ∧
  no_network w (snd (downloadStrapiImage env pf net url w)) ∧
  no_filesystem_write w (snd (downloadStrapiImage env pf net url w)).
Proof.
  intros Hdev. unfold downloadStrapiImage, getStrapiMedia. rewrite Hdev.
  async_unfold. destruct (truthy url); cbn; repeat split.
Qed.

(** C10. The empty string is handled like an absent input:
    [getStrapiMedia ""] is [null] under every configuration, and
    [downloadStrapiImage ""] returns [null] in every runtime mode without
    any network call or file system write. *)
Theorem empty_string_is_absent_C10 w :
  getStrapiMedia env (Some "") = None ∧
  getStrapiMedia env (Some "") = getStrapiMedia env None ∧
  fst (downloadStrapiImage env pf net (Some "") w) = Returned None ∧
  fst (downloadStrapiImage env pf net (Some "") w)
    = fst (downloadStrapiImage env pf net None w) ∧
  no_network w (snd (downloadStrapiImage env pf net (Some "") w)) ∧
  no_filesystem_write w (snd (downloadStrapiImage env pf net (Some "") w)).
Proof.
  unfold downloadStrapiImage, getStrapiMedia. async_unfold.
  destruct (DEV env); cbn; repeat split.
Qed.

(** C6. Production mode, a relative path, and a download in which every
    step succeeds: the bytes of the resolved URL are fetched with one plain
    GET, the upload directory is created when nothing of that name exists,
    the bytes are stored at [<cwd>/public/uploads/<filename>] in place of
    whatever was there, and the result is [/uploads/<filename>], where
    [<filename>] is the last segment of the URL's path. *)
Theorem production_download_caches_C6 u urlPath filename elapsed r bytes w :
  DEV env = false ->
  PROD env || String.eqb (MODE env) "production" = true ->
  u ≠ "" ->
  startsWith u "http" = false ->
  let fullUrl := interpolate (STRAPI_URL env) +:+ u in
  let uploadsDir := path_join pf [cwd pf; "public"; "uploads"] in
  let localPath := path_join pf [uploadsDir; filename] in
  url_pathname pf fullUrl = Returned urlPath ->
  pop (split "/" urlPath) = Some filename ->
  filename ≠ "" ->
  net {| req_url := fullUrl; req_headers := ∅; req_timeout := None |}
    = NetResponds elapsed r ->
  ok r = true ->
  arrayBuffer r = Returned bytes ->
  import_error pf "fs" = None ->
  import_error pf "path" = None ->
  mkdir_error pf uploadsDir = None ->
  write_error pf localPath = None ->
  fst (downloadStrapiImage env pf net (Some u) w)
    = Returned (Some ("/uploads/" +:+ filename)) ∧
  issued w (snd (downloadStrapiImage env pf net (Some u) w))
    {| req_url := fullUrl; req_headers := ∅; req_timeout := None |} ∧
  fs_files (snd (downloadStrapiImage env pf net (Some u) w))
    = <[ localPath := bytes ]> (fs_files w) ∧
  fs_dirs (snd (downloadStrapiImage env pf net (Some u) w))
    = (if path_exists w uploadsDir then fs_dirs w
       else {[ uploadsDir ]} ∪ path_ancestors pf uploadsDir ∪ fs_dirs w).
Proof.
  intros Hdev Hprod Hu Hrel fullUrl uploadsDir localPath
    Hpath Hpop Hname Hnet Hok Hbuf Hfs Hpathmod Hmkdir Hwrite.
  unfold downloadStrapiImage.
  rewrite (truthy_nonempty u Hu), Hdev, Hprod. cbn [negb from_option id].
  rewrite Hrel. fold fullUrl. async_unfold. cbn beta iota.
  rewrite Hpath, Hpop, (truthy_nonempty filename Hname). cbn [negb from_option id].
  rewrite Hnet, Hok. cbn [negb]. rewrite Hbuf, Hfs, Hpathmod.
  fold uploadsDir. rewrite path_exists_with_request.
  destruct (path_exists w uploadsDir) eqn:Hex; cbn [negb].
  - fold localPath. rewrite Hwrite. cbn. unfold issued. cbn. auto.
  - rewrite Hmkdir. fold localPath. rewrite Hwrite. cbn. unfold issued. cbn. auto.
Qed.

(** With a base URL that begins with [http], every result other than
    [null] and a path under [/uploads/] begins with [http]. *)
Lemma downloadStrapiImage_configured_shape url w :
  truthy (STRAPI_URL env) = true ->
  startsWith (interpolate (STRAPI_URL env)) "http" = true ->
  ∃ v, fst (downloadStrapiImage env pf net url w) = Returned v ∧
       (v = None ∨
        (∃ s, v = Some s ∧ startsWith s "http" = true) ∨
        (∃ filename, v = Some ("/uploads/" +:+ filename))).
Proof.
  intros Hconf Hbase.
  destruct (downloadStrapiImage_returns url w) as (v & Hv & [-> | [-> | H]]);
    eexists; (split; [exact Hv |]); auto.
  - unfold getStrapiMedia.
    destruct (truthy url); cbn [negb]; auto.
    destruct (startsWith (default "" url) "http") eqn:Habs; [eauto |].
    rewrite Hconf. cbn [negb]. right; left. eexists; split; [reflexivity |].
    apply startsWith_app, Hbase.
  - right; left. eexists; split; [reflexivity |]. unfold resolved.
    destruct (startsWith (default "" url) "http") eqn:Habs; [exact Habs |].
    apply startsWith_app, Hbase.
Qed.

(** C4, at the input where the code departs from it: a production build
    with no base URL and a relative path.  [fullUrl] is the path prefixed
    with the text [undefined]; the URL constructor rejects it, the [catch]
    block returns it, and the result is neither [null], nor a path under
    [/uploads/], nor a string the module itself takes for absolute, while
    [getStrapiMedia] answers [null] for the same input. *)
Theorem unconfigured_production_download_C4 u e w :
  PUBLIC_STRAPI_URL env = None ->
  DEV env = false ->
  PROD env || String.eqb (MODE env) "production" = true ->
  u ≠ "" ->
  startsWith u "http" = false ->
  url_pathname pf ("undefined" +:+ u) = Thrown e ->
  fst (downloadStrapiImage env pf net (Some u) w) = Returned (Some ("undefined" +:+ u)) ∧
  no_network w (snd (downloadStrapiImage env pf net (Some u) w)) ∧
  no_filesystem_write w (snd (downloadStrapiImage env pf net (Some u) w)) ∧
  startsWith ("undefined" +:+ u) "http" = false ∧
  startsWith ("undefined" +:+ u) "/uploads/" = false ∧
  getStrapiMedia env (Some u) = None.
Proof.
  intros Hbase Hdev Hprod Hu Hrel Hurl.
  assert (Hmedia : getStrapiMedia env (Some u) = None).
  { apply getStrapiMedia_unconfigured; [exact Hrel |].
    unfold STRAPI_URL. rewrite Hbase. reflexivity. }
  unfold downloadStrapiImage.
  rewrite (truthy_nonempty u Hu), Hdev, Hprod. cbn [negb from_option id].
  rewrite Hrel. unfold STRAPI_URL. rewrite Hbase. cbn [interpolate].
  async_unfold. rewrite Hurl. cbn. repeat split. exact Hmedia.
Qed.

(** C9, as the code has it. The test for an absolute URL is the prefix
    [http] and nothing else.  An input with that prefix is returned as it is
    by [getStrapiMedia], and [downloadStrapiImage] fetches and falls back to
    the input itself.  A non-empty input without the prefix is relative:
    with a base URL, [getStrapiMedia] returns the base URL followed by the
    input and [downloadStrapiImage] fetches and falls back to that same
    string; with no base URL [getStrapiMedia] returns [null]. *)
Theorem http_prefix_decides_C9 :
  (∀ u, startsWith u "http" = true ->
     getStrapiMedia env (Some u) = Some u ∧
     ∀ w,
       (fst (downloadStrapiImage env pf net (Some u) w) = Returned (Some u) ∨
        ∃ filename, fst (downloadStrapiImage env pf net (Some u) w)
                      = Returned (Some ("/uploads/" +:+ filename))) ∧
       (no_network w (snd (downloadStrapiImage env pf net (Some u) w)) ∨
        issued w (snd (downloadStrapiImage env pf net (Some u) w))
          {| req_url := u; req_headers := ∅; req_timeout := None |})) ∧
  (∀ u base, u ≠ "" -> startsWith u "http" = false ->
     STRAPI_URL env = Some base -> base ≠ "" ->
     getStrapiMedia env (Some u) = Some (base +:+ u) ∧
     ∀ w,
       (fst (downloadStrapiImage env pf net (Some u) w) = Returned (Some (base +:+ u)) ∨
        ∃ filename, fst (downloadStrapiImage env pf net (Some u) w)
                      = Returned (Some ("/uploads/" +:+ filename))) ∧
       (no_network w (snd (downloadStrapiImage env pf net (Some u) w)) ∨
        issued w (snd (downloadStrapiImage env pf net (Some u) w))
          {| req_url := base +:+ u; req_headers := ∅; req_timeout := None |})) ∧
  (∀ u, startsWith u "http" = false -> truthy (STRAPI_URL env) = false ->
     getStrapiMedia env (Some u) = None).
Proof.
  split; [| split].
  - intros u Habs.
    pose proof (getStrapiMedia_absolute env u Habs) as Hmedia.
    split; [exact Hmedia |]. intros w.
    pose proof (downloadStrapiImage_requests (Some u) w) as Hreq.
    destruct (downloadStrapiImage_returns (Some u) w) as (v & Hv & Hshape).
    unfold resolved in *. cbn [from_option id] in *.
    rewrite Habs in *. rewrite Hmedia in Hshape. split; [| exact Hreq].
    rewrite Hv. destruct Hshape as [-> | [-> | [f ->]]]; eauto.
  - intros u base Hu Hrel Hbase Hne.
    assert (Hconf : truthy (STRAPI_URL env) = true)
      by (rewrite Hbase; apply truthy_nonempty, Hne).
    pose proof (getStrapiMedia_relative env u Hu Hrel Hconf) as Hmedia.
    rewrite Hbase in Hmedia. cbn [interpolate] in Hmedia.
    split; [exact Hmedia |]. intros w.
    pose proof (downloadStrapiImage_requests (Some u) w) as Hreq.
    destruct (downloadStrapiImage_returns (Some u) w) as (v & Hv & Hshape).
    unfold resolved in *. cbn [from_option id] in *.
    rewrite Hrel, Hbase in *. cbn [interpolate] in *.
    rewrite Hmedia in Hshape. split; [| exact Hreq].
    rewrite Hv. destruct Hshape as [-> | [-> | [f ->]]]; eauto.
  - apply getStrapiMedia_unconfigured.
Qed.
End Images.

(** * Worked scenarios *)

(** Scenario B: a backend that answers 500 gives the empty collection. *)
Lemma fetchers_never_raise_C1_witness :
  fst (fetchStrapi (T := string) cmsProduction
         (failing 500 "Internal Server Error") "menu-items" emptyWorld)
    = Returned emptyCollection ∧
  fst (fetchStrapiSingle cmsProduction
         (slow (Returned {| hp_data := None; hp_meta := None |})) "menu-items" emptyWorld)
    = Returned nullSingle.
Proof.
  destruct (fetchers_never_raise_C1 (T := string) cmsProduction
              (failing 500 "Internal Server Error")
              (slow (Returned {| hp_data := None; hp_meta := None |}))
              "menu-items" emptyWorld)
    as [(v & Hv & Hf) (v' & Hv' & Hf')].
  split.
  - rewrite Hv. f_equal. eapply Hf; reflexivity.
  - rewrite Hv'. f_equal. eapply Hf'; reflexivity.
Defined.

(** Scenario A: no base URL. *)
Lemma unconfigured_short_circuit_C2_witness :
  truthy (STRAPI_URL unconfiguredProduction) = false ∧
  fst (fetchStrapi (T := string) unconfiguredProduction
         (reachable (Returned emptyCollection)) "menu-items" emptyWorld)
    = Returned {| data := []; meta := {| pagination := None |} |} ∧
  requests (snd (fetchStrapiSingle unconfiguredProduction
                   (reachable (Returned nullSingle)) "menu-items" emptyWorld)) = [].
Proof.
  pose proof (unconfigured_short_circuit_C2 (T := string) unconfiguredProduction
                (reachable (Returned emptyCollection))
                (reachable (Returned nullSingle))
                "menu-items" emptyWorld eq_refl) as [[Hv _] [_ Hn]].
  split; [reflexivity |]. split; [exact Hv | exact Hn].
Defined.

Lemma status_classification_is_cosmetic_C3_witness :
  fst (fetchStrapi (T := string) cmsProduction
         (failing 404 "Not Found") "dishes" emptyWorld)
    = Returned emptyCollection ∧
  fst (fetchStrapiSingle cmsProduction
         (failing 418 "I'm a teapot") "dishes" emptyWorld)
    = Returned nullSingle.
Proof.
  destruct (status_classification_is_cosmetic_C3 (T := string) cmsProduction
              (failing 404 "Not Found") (failing 418 "I'm a teapot")
              "dishes" emptyWorld) as [H H'].
  split.
  - eapply H; [reflexivity | reflexivity | vm_compute; discriminate].
  - eapply H'; [reflexivity | reflexivity | vm_compute; discriminate].
Defined.

(** The classification is visible in the development console only. *)
Example classification_reaches_the_console :
  (detail <$> console (snd (fetchStrapi (T := string) cmsDevelopment
                              (failing 404 "Not Found") "dishes" emptyWorld)))
    = [Some (Error "Endpoint not found: dishes"); None] ∧
  (detail <$> console (snd (fetchStrapi (T := string) cmsDevelopment
                              (failing 503 "Service Unavailable") "dishes" emptyWorld)))
    = [Some (Error "Strapi server error. Please try again later."); None] ∧
  (detail <$> console (snd (fetchStrapi (T := string) cmsDevelopment
                              (failing 418 "I'm a teapot") "dishes" emptyWorld)))
    = [Some (Error "Failed to fetch from Strapi: I'm a teapot"); None].
Proof. repeat split. Qed.

Lemma unconfigured_production_download_C4_witness :
  url_pathname samplePlatform "undefined/uploads/plate.jpg"
    = Thrown (TypeError "Invalid URL") ∧
  fst (downloadStrapiImage unconfiguredProduction samplePlatform
         (reachable (Returned tt)) (Some "/uploads/plate.jpg") emptyWorld)
    = Returned (Some "undefined/uploads/plate.jpg").
Proof.
  split; [reflexivity |].
  apply (unconfigured_production_download_C4 unconfiguredProduction samplePlatform
           (reachable (Returned tt)) "/uploads/plate.jpg"
           (TypeError "Invalid URL") emptyWorld);
    try reflexivity.
  discriminate.
Defined.

(** Scenario D: an absolute URL comes back unchanged. *)
Lemma getStrapiMedia_cases_C5_witness :
  getStrapiMedia cmsProduction (Some "https://cdn.example.com/x.jpg")
    = Some "https://cdn.example.com/x.jpg" ∧
  getStrapiMedia cmsProduction (Some "/uploads/plate.jpg")
    = Some "https://cms.example.com/uploads/plate.jpg" ∧
  getStrapiMedia unconfiguredProduction (Some "/uploads/plate.jpg") = None.
Proof.
  split; [| split].
  - apply (getStrapiMedia_cases_C5 cmsProduction). reflexivity.
  - apply (getStrapiMedia_cases_C5 cmsProduction)
      with (base := "https://cms.example.com"); try reflexivity; discriminate.
  - apply (getStrapiMedia_cases_C5 unconfiguredProduction); reflexivity.
Defined.

(** A scheme-qualified URL whose scheme is not spelled [http...] is taken
    for a relative path, and the empty string gives [null] although a base
    URL is there to be prepended. *)
Lemma getStrapiMedia_cases_C5_counterexample :
  spec_scheme_qualified "ftp://files.example.com/a.png" = true ∧
  getStrapiMedia cmsProduction (Some "ftp://files.example.com/a.png")
    = Some "https://cms.example.comftp://files.example.com/a.png" ∧
  getStrapiMedia cmsProduction (Some "ftp://files.example.com/a.png")
    ≠ Some "ftp://files.example.com/a.png" ∧
  spec_scheme_qualified "HTTPS://cdn.example.com/x.jpg" = true ∧
  getStrapiMedia cmsProduction (Some "HTTPS://cdn.example.com/x.jpg")
    ≠ Some "HTTPS://cdn.example.com/x.jpg" ∧
  getStrapiMedia cmsProduction (Some "")
    ≠ Some ("https://cms.example.com" +:+ "").
Proof. repeat split; vm_compute; discriminate. Qed.

(** Scenario E. *)
Lemma production_download_caches_C6_witness :
  fst (downloadStrapiImage cmsProduction samplePlatform
         (reachable (Returned tt)) (Some "/uploads/plate.jpg") emptyWorld)
    = Returned (Some "/uploads/plate.jpg") ∧
  (req_url <$> requests (snd (downloadStrapiImage cmsProduction samplePlatform
                                (reachable (Returned tt)) (Some "/uploads/plate.jpg")
                                emptyWorld)))
    = ["https://cms.example.com/uploads/plate.jpg"] ∧
  fs_files (snd (downloadStrapiImage cmsProduction samplePlatform
                   (reachable (Returned tt)) (Some "/uploads/plate.jpg") emptyWorld))
    !! "/srv/site/public/uploads/plate.jpg" = Some sampleBytes ∧
  "/srv/site/public/uploads"
    ∈ fs_dirs (snd (downloadStrapiImage cmsProduction samplePlatform
                      (reachable (Returned tt)) (Some "/uploads/plate.jpg") emptyWorld)).
Proof.
  destruct (production_download_caches_C6 cmsProduction samplePlatform
              (reachable (Returned tt)) "/uploads/plate.jpg" "/uploads/plate.jpg"
              "plate.jpg" 120
              {| status := 200; statusText := "OK"; json := Returned tt;
                 arrayBuffer := Returned sampleBytes |}
              sampleBytes emptyWorld)
    as (Hv & Hrq & Hfiles & Hdirs);
    try reflexivity; try discriminate.
  split; [exact Hv |]. split; [rewrite Hrq; reflexivity |].
  split.
  - rewrite Hfiles. apply lookup_insert_eq.
  - rewrite Hdirs. vm_compute path_exists. set_solver.
Defined.

(** Scenario F: the backend cannot be reached during a production build;
    the remote URL comes back and nothing is written. *)
Example unreachable_backend_falls_back :
  fst (downloadStrapiImage cmsProduction samplePlatform (J := unit)
         unreachable (Some "/uploads/plate.jpg") emptyWorld)
    = Returned (Some "https://cms.example.com/uploads/plate.jpg") ∧
  fs_files (snd (downloadStrapiImage cmsProduction samplePlatform (J := unit)
                   unreachable (Some "/uploads/plate.jpg") emptyWorld)) = ∅ ∧
  (level <$> console (snd (downloadStrapiImage cmsProduction samplePlatform (J := unit)
                             unreachable (Some "/uploads/plate.jpg") emptyWorld)))
    = [LevelError].
Proof. repeat split. Qed.

Lemma dev_mode_bypass_C7_witness :
  DEV cmsDevelopment = true ∧
  fst (downloadStrapiImage cmsDevelopment samplePlatform
         (reachable (Returned tt)) (Some "/uploads/plate.jpg") emptyWorld)
    = Returned (Some "https://cms.example.com/uploads/plate.jpg") ∧
  fs_files (snd (downloadStrapiImage cmsDevelopment samplePlatform
                   (reachable (Returned tt)) (Some "/uploads/plate.jpg") emptyWorld))
    = ∅.
Proof.
  destruct (dev_mode_bypass_C7 cmsDevelopment samplePlatform
              (reachable (Returned tt)) (Some "/uploads/plate.jpg") emptyWorld eq_refl)
    as (Hv & _ & _ & Hfiles).
  split; [reflexivity |]. split; [exact Hv | exact Hfiles].
Defined.

Lemma getStrapiMedia_idempotent_C8_witness :
  startsWith (interpolate (STRAPI_URL cmsProduction)) "http" = true ∧
  getStrapiMedia cmsProduction (getStrapiMedia cmsProduction (Some "/uploads/plate.jpg"))
    = getStrapiMedia cmsProduction (Some "/uploads/plate.jpg").
Proof.
  split; [reflexivity |].
  apply (getStrapiMedia_idempotent_C8 cmsProduction). reflexivity.
Defined.

(** A base URL written without its scheme is prepended a second time. *)
Lemma getStrapiMedia_idempotent_C8_counterexample :
  getStrapiMedia schemelessProduction (Some "/uploads/plate.jpg")
    = Some "localhost:1337/uploads/plate.jpg" ∧
  getStrapiMedia schemelessProduction
    (getStrapiMedia schemelessProduction (Some "/uploads/plate.jpg"))
    = Some "localhost:1337localhost:1337/uploads/plate.jpg" ∧
  getStrapiMedia schemelessProduction
    (getStrapiMedia schemelessProduction (Some "/uploads/plate.jpg"))
    ≠ getStrapiMedia schemelessProduction (Some "/uploads/plate.jpg").
Proof. repeat split; vm_compute; discriminate. Qed.

Lemma http_prefix_decides_C9_witness :
  getStrapiMedia cmsProduction (Some "httpfoo/bar") = Some "httpfoo/bar" ∧
  getStrapiMedia cmsProduction (Some "HTTP://cdn.example.com/x.jpg")
    = Some "https://cms.example.comHTTP://cdn.example.com/x.jpg".
Proof.
  destruct (http_prefix_decides_C9 (J := unit) cmsProduction samplePlatform
              (reachable (Returned tt))) as (Habs & Hrel & _).
  split.
  - apply Habs. reflexivity.
  - apply (Hrel "HTTP://cdn.example.com/x.jpg" "https://cms.example.com");
      try reflexivity; discriminate.
Defined.

(** The empty string does not begin with [http], and no base URL is
    prepended to it; nor is one prepended when none is configured. *)
Lemma http_prefix_decides_C9_counterexample :
  startsWith "" "http" = false ∧
  getStrapiMedia cmsProduction (Some "") = None ∧
  fst (downloadStrapiImage cmsProduction samplePlatform
         (reachable (Returned tt)) (Some "") emptyWorld) = Returned None ∧
  startsWith "/uploads/plate.jpg" "http" = false ∧
  getStrapiMedia unconfiguredProduction (Some "/uploads/plate.jpg") = None.
Proof. repeat split. Qed.


(** * Further properties of the module *)

(** ** Start-up and the content fetchers *)

Section FetcherFacts.
Context {T : Type} (env : ImportMetaEnv).
Context (net : Network (StrapiResponse T)) (netS : Network HomepageResponse).

(** The request of [fetchStrapi], spelled out. *)
Lemma fetchStrapi_issues endpoint w :
  truthy (STRAPI_URL env) = true ->
  issued w (snd (fetchStrapi env net endpoint w))
    {| req_url :=
         interpolate (STRAPI_URL env) +:+ "/api/" +:+ endpoint +:+
         "?populate[image][fields][0]=url&populate[image][fields][1]=alternativeText&populate[image][fields][2]=formats&populate[cuisine][fields][0]=name";
       req_headers :=
         if truthy (STRAPI_TOKEN env)
         then <[ "Authorization" := "Bearer " +:+ interpolate (STRAPI_TOKEN env) ]>
                {[ "Content-Type" := "application/json" ]}
         else {[ "Content-Type" := "application/json" ]};
       req_timeout := Some 10000 |}.
Proof.
  intros Hurl. unfold fetchStrapi, issued. rewrite Hurl. cbn [negb].
  async_unfold. cbn beta iota. async_cases; reflexivity.
Qed.

Lemma fetchStrapiSingle_issues endpoint w :
  truthy (STRAPI_URL env) = true ->
  issued w (snd (fetchStrapiSingle env netS endpoint w))
    {| req_url :=
         interpolate (STRAPI_URL env) +:+ "/api/" +:+ endpoint +:+
         "?populate[heroSection][populate]=heroImage";
       req_headers :=
         if truthy (STRAPI_TOKEN env)
         then <[ "Authorization" := "Bearer " +:+ interpolate (STRAPI_TOKEN env) ]>
                {[ "Content-Type" := "application/json" ]}
         else {[ "Content-Type" := "application/json" ]};
       req_timeout := Some 10000 |}.
Proof.
  intros Hurl. unfold fetchStrapiSingle, issued. rewrite Hurl. cbn [negb].
  async_unfold. cbn beta iota. async_cases; reflexivity.
Qed.

(** X1. Loading the module writes one line to the console and does nothing
    else; that line is a warning exactly when no base URL is configured, which
    is exactly when [fetchStrapi] will answer without calling the network. *)
Theorem startup_notice_matches_short_circuit endpoint w w0 :
  fst (module_load env w) = Returned tt ∧
  no_network w (snd (module_load env w)) ∧
  no_filesystem_write w (snd (module_load env w)) ∧
  ∃ e, console (snd (module_load env w)) = (console w ++ [e])%list ∧
       detail e = None ∧
       (level e = LevelWarn ∨ level e = LevelLog) ∧
       (level e = LevelWarn <-> truthy (STRAPI_URL env) = false) ∧
       (level e = LevelWarn <->
        no_network w0 (snd (fetchStrapi env net endpoint w0))).
Proof.
  unfold module_load.
  destruct (truthy (STRAPI_URL env)) eqn:Hurl; cbn [negb];
    (split; [reflexivity |]); (split; [reflexivity |]);
    (split; [split; reflexivity |]);
    eexists; (split; [reflexivity |]); (split; [reflexivity |]); cbn [level].
  - split; [auto |]. split; [split; discriminate |].
    split; [discriminate |]. intros Hn. exfalso.
    eapply no_network_not_issued; [exact Hn |].
    apply fetchStrapi_issues, Hurl.
  - split; [auto |]. split; [split; reflexivity |].
    split; [| reflexivity]. intros _.
    apply (fetchStrapi_unconfigured env net endpoint w0 Hurl).
Qed.

(** X2. On a configured backend each fetcher sends one request to
    [<base>/api/<endpoint>] followed by its fixed query, with a ten second
    abort signal, the JSON content type, and a bearer [Authorization] header
    when, and only when, a non-empty token is configured; no other header is
    sent. *)
Theorem fetch_request_shape endpoint w :
  truthy (STRAPI_URL env) = true ->
  (∃ rq query,
     issued w (snd (fetchStrapi env net endpoint w)) rq ∧
     req_url rq = interpolate (STRAPI_URL env) +:+ "/api/" +:+ endpoint +:+ query ∧
     req_timeout rq = Some 10000 ∧
     req_headers rq !! "Content-Type" = Some "application/json" ∧
     req_headers rq !! "Authorization"
       = (if truthy (STRAPI_TOKEN env)
          then Some ("Bearer " +:+ interpolate (STRAPI_TOKEN env)) else None) ∧
     dom (req_headers rq) ⊆ ({[ "Content-Type"; "Authorization" ]} : gset string)) ∧
  (∃ rq query,
     issued w (snd (fetchStrapiSingle env netS endpoint w)) rq ∧
     req_url rq = interpolate (STRAPI_URL env) +:+ "/api/" +:+ endpoint +:+ query ∧
     req_timeout rq = Some 10000 ∧
     req_headers rq !! "Content-Type" = Some "application/json" ∧
     req_headers rq !! "Authorization"
       = (if truthy (STRAPI_TOKEN env)
          then Some ("Bearer " +:+ interpolate (STRAPI_TOKEN env)) else None) ∧
     dom (req_headers rq) ⊆ ({[ "Content-Type"; "Authorization" ]} : gset string)).
Proof.
  intros Hurl. split.
  - eexists; eexists. split; [apply fetchStrapi_issues, Hurl |].
    cbn [req_url req_headers req_timeout].
    split; [reflexivity |]. split; [reflexivity |].
    destruct (truthy (STRAPI_TOKEN env)).
    + rewrite lookup_insert_ne by discriminate.
      rewrite lookup_insert_eq, lookup_singleton_eq.
      repeat split. rewrite dom_insert_L, dom_singleton_L. set_solver.
    + rewrite lookup_singleton_eq, lookup_singleton_ne by discriminate.
      repeat split. rewrite dom_singleton_L. set_solver.
  - eexists; eexists. split; [apply fetchStrapiSingle_issues, Hurl |].
    cbn [req_url req_headers req_timeout].
    split; [reflexivity |]. split; [reflexivity |].
    destruct (truthy (STRAPI_TOKEN env)).
    + rewrite lookup_insert_ne by discriminate.
      rewrite lookup_insert_eq, lookup_singleton_eq.
      repeat split. rewrite dom_insert_L, dom_singleton_L. set_solver.
    + rewrite lookup_singleton_eq, lookup_singleton_ne by discriminate.
      repeat split. rewrite dom_singleton_L. set_solver.
Qed.


(** X4. The fetchers never touch the file system, and they only add to the
    console and to the list of requests: what was there stays, in order. *)
Theorem fetchers_frame endpoint w :
  (no_filesystem_write w (snd (fetchStrapi env net endpoint w)) ∧
   console w `prefix_of` console (snd (fetchStrapi env net endpoint w)) ∧
   requests w `prefix_of` requests (snd (fetchStrapi env net endpoint w))) ∧
  (no_filesystem_write w (snd (fetchStrapiSingle env netS endpoint w)) ∧
   console w `prefix_of` console (snd (fetchStrapiSingle env netS endpoint w)) ∧
   requests w `prefix_of` requests (snd (fetchStrapiSingle env netS endpoint w))).
Proof.
  unfold fetchStrapi, fetchStrapiSingle, no_filesystem_write. async_unfold.
  split; async_cases; cbn;
    (split; [split; reflexivity |]);
    split; repeat apply prefix_app_r; reflexivity.
Qed.

(** X5. Outside development mode the fetchers keep the console terse: nothing
    is written when the backend is not configured or the exchange succeeds,
    and a failed exchange leaves one plain line that names the endpoint and
    carries no error object. *)
Theorem production_console_is_terse endpoint w :
  DEV env = false ->
  (∀ rq, issued w (snd (fetchStrapi env net endpoint w)) rq ->
     console (snd (fetchStrapi env net endpoint w))
       = (console w ++
          (if exchange_failed 10000 (net rq)
           then [ {| level := LevelLog;
                     text := "Using fallback content for " +:+ endpoint +:+ " (Strapi unavailable)";
                     detail := None |} ]
           else []))%list) ∧
  (∀ rq, issued w (snd (fetchStrapiSingle env netS endpoint w)) rq ->
     console (snd (fetchStrapiSingle env netS endpoint w))
       = (console w ++
          (if exchange_failed 10000 (netS rq)
           then [ {| level := LevelLog;
                     text := "Using fallback content for " +:+ endpoint +:+ " (Strapi unavailable)";
                     detail := None |} ]
           else []))%list) ∧
  (truthy (STRAPI_URL env) = false ->
     console (snd (fetchStrapi env net endpoint w)) = console w ∧
     console (snd (fetchStrapiSingle env netS endpoint w)) = console w).
Proof.
  intros Hdev. split; [| split].
  - intros rq Hrq. destruct (truthy (STRAPI_URL env)) eqn:Hurl.
    + rewrite (issued_unique _ _ _ _ Hrq (fetchStrapi_issues endpoint w Hurl)).
      clear Hrq. unfold fetchStrapi, exchange_failed. rewrite Hurl, Hdev.
      cbn [negb]. async_unfold. cbn beta iota.
      async_cases; cbn; rewrite ?app_nil_r; try reflexivity; try discriminate.
    + destruct (fetchStrapi_unconfigured env net endpoint w Hurl) as (_ & Hn & _).
      destruct (no_network_not_issued _ _ _ Hn Hrq).
  - intros rq Hrq. destruct (truthy (STRAPI_URL env)) eqn:Hurl.
    + rewrite (issued_unique _ _ _ _ Hrq (fetchStrapiSingle_issues endpoint w Hurl)).
      clear Hrq. unfold fetchStrapiSingle, exchange_failed. rewrite Hurl, Hdev.
      cbn [negb]. async_unfold. cbn beta iota.
      async_cases; cbn; rewrite ?app_nil_r; try reflexivity; try discriminate.
    + destruct (fetchStrapiSingle_unconfigured env netS endpoint w Hurl) as (_ & Hn & _).
      destruct (no_network_not_issued _ _ _ Hn Hrq).
  - intros Hurl. unfold fetchStrapi, fetchStrapiSingle. rewrite Hurl, Hdev.
    cbn [negb]. async_unfold. split; reflexivity.
Qed.


(** X7. The API token reaches the [Authorization] header and nothing else:
    against a network that looks at the URL only, changing the token changes
    neither the result, nor the console, nor the URLs requested, nor the file
    system. *)
Theorem token_only_reaches_the_header tok endpoint w :
  header_blind net ->
  header_blind netS ->
  (fst (fetchStrapi (with_token tok env) net endpoint w)
     = fst (fetchStrapi env net endpoint w) ∧
   console (snd (fetchStrapi (with_token tok env) net endpoint w))
     = console (snd (fetchStrapi env net endpoint w)) ∧
   req_url <$> requests (snd (fetchStrapi (with_token tok env) net endpoint w))
     = req_url <$> requests (snd (fetchStrapi env net endpoint w))) ∧
  (fst (fetchStrapiSingle (with_token tok env) netS endpoint w)
     = fst (fetchStrapiSingle env netS endpoint w) ∧
   console (snd (fetchStrapiSingle (with_token tok env) netS endpoint w))
     = console (snd (fetchStrapiSingle env netS endpoint w)) ∧
   req_url <$> requests (snd (fetchStrapiSingle (with_token tok env) netS endpoint w))
     = req_url <$> requests (snd (fetchStrapiSingle env netS endpoint w))).
Proof.
  intros Hnet HnetS.
  unfold fetchStrapi, fetchStrapiSingle, STRAPI_URL, STRAPI_TOKEN.
  cbn [with_token PUBLIC_STRAPI_URL STRAPI_API_TOKEN DEV].
  destruct (truthy (PUBLIC_STRAPI_URL env)); cbn [negb];
    [| split; repeat split].
  async_unfold. cbn beta iota. split.
  - match goal with
    | |- context [net ?a] =>
        match goal with
        | |- context [net ?b] =>
            lazymatch a with b => fail | _ => rewrite (Hnet a b eq_refl) end
        end
    end.
    async_cases; cbn; rewrite ?fmap_app; repeat split.
  - match goal with
    | |- context [netS ?a] =>
        match goal with
        | |- context [netS ?b] =>
            lazymatch a with b => fail | _ => rewrite (HnetS a b eq_refl) end
        end
    end.
    async_cases; cbn; rewrite ?fmap_app; repeat split.
Qed.
End FetcherFacts.

(** ** Strings and modes *)

Lemma split_last_segment (sep : ascii) (s : string) :
  ∃ f, pop (split sep s) = Some f ∧ has_char sep f = false ∧
       ((split sep s = [f] ∧ s = f) ∨
        (∃ d, s = d +:+ String sep f ∧ (1 < length (split sep s))%nat)).
Proof.
  unfold pop. induction s as [| c rest (f & Hlast & Hfree & Hshape)].
  - exists "". cbn. auto.
  - cbn [split]. destruct (Ascii.eqb c sep) eqn:Hc.
    + apply Ascii.eqb_eq in Hc. subst c. exists f.
      destruct (split sep rest) as [| piece pieces] eqn:Hsplit; [discriminate |].
      split; [exact Hlast |]. split; [exact Hfree |]. right.
      destruct Hshape as [[_ ->] | (d & -> & _)].
      * exists "". split; [reflexivity | cbn; lia].
      * exists (String sep d). split; [reflexivity | cbn; lia].
    + destruct (split sep rest) as [| piece pieces] eqn:Hsplit; [discriminate |].
      destruct pieces as [| piece' pieces].
      * cbn in Hlast. injection Hlast as ->.
        exists (String c f). cbn [has_char]. rewrite Hc, Hfree.
        split; [reflexivity |]. split; [reflexivity |]. left.
        destruct Hshape as [[_ ->] | (d & _ & Hlen)]; [auto | cbn in Hlen; lia].
      * exists f. split; [exact Hlast |]. split; [exact Hfree |]. right.
        destruct Hshape as [[Hone _] | (d & -> & _)]; [discriminate |].
        exists (String c d). split; [reflexivity | cbn; lia].
Qed.

Lemma split_trailing_separator (sep : ascii) (d : string) :
  ∃ l, split sep (d +:+ String sep "") = (l ++ [""])%list ∧ l ≠ [].
Proof.
  induction d as [| c d (l & Hl & Hne)].
  - exists [""]. change ("" +:+ String sep "") with (String sep "").
    cbn [split]. rewrite Ascii.eqb_refl. auto.
  - change (String c d +:+ String sep "") with (String c (d +:+ String sep "")).
    cbn [split]. rewrite Hl. destruct (Ascii.eqb c sep).
    + exists ("" :: l). auto.
    + destruct l as [| piece pieces]; [congruence |].
      exists (String c piece :: pieces). auto.
Qed.

Lemma truthy_default (o : option string) :
  truthy o = true -> o = Some (default "" o) ∧ default "" o ≠ "".
Proof. destruct o as [[| c s] |]; cbn; try discriminate. auto. Qed.

Lemma production_build_true env :
  production_build env = true ->
  DEV env = false ∧ PROD env || String.eqb (MODE env) "production" = true.
Proof.
  unfold production_build. intros H. apply andb_true_iff in H as [Hd Hp].
  apply negb_true_iff in Hd. auto.
Qed.

(** ** The image cache, continued *)

Section ImageFacts.
Context {J : Type} (env : ImportMetaEnv) (pf : Platform) (net : Network J).

(** A download that reaches the disk and is allowed to write stores the
    bytes and returns the local path. *)
Lemma download_stores u f bytes w :
  reaches_disk env pf net u f bytes ->
  (path_exists w (uploads_dir pf) = false -> mkdir_error pf (uploads_dir pf) = None) ->
  write_error pf (local_path pf f) = None ->
  fst (downloadStrapiImage env pf net (Some u) w) = Returned (Some ("/uploads/" +:+ f)) ∧
  fs_files (snd (downloadStrapiImage env pf net (Some u) w))
    = <[ local_path pf f := bytes ]> (fs_files w) ∧
  fs_dirs (snd (downloadStrapiImage env pf net (Some u) w))
    = (if path_exists w (uploads_dir pf) then fs_dirs w
       else {[ uploads_dir pf ]} ∪ path_ancestors pf (uploads_dir pf) ∪ fs_dirs w) ∧
  issued w (snd (downloadStrapiImage env pf net (Some u) w)) (image_request env u).
Proof.
  intros (Hprod & Hu & (urlPath & Hpath & Hpop) & Hf & (elapsed & r & Hnet & Hok & Hbuf)
          & Hfs & Hpathmod) Hmkdir Hwrite.
  apply production_build_true in Hprod as [Hdev Hprod].
  unfold image_request, resolved, local_path, uploads_dir in *.
  unfold downloadStrapiImage.
  rewrite (truthy_nonempty u Hu), Hdev, Hprod. cbn [negb from_option id].
  async_unfold. cbn beta iota.
  rewrite Hpath, Hpop, (truthy_nonempty f Hf). cbn [negb from_option id].
  rewrite Hnet, Hok. cbn [negb]. rewrite Hbuf, Hfs, Hpathmod.
  rewrite path_exists_with_request.
  destruct (path_exists w _) eqn:Hex; cbn [negb].
  - rewrite Hwrite. cbn. unfold issued. cbn. auto.
  - rewrite (Hmkdir eq_refl), Hwrite. cbn. unfold issued. cbn. auto.
Qed.

(** After a stored download the upload directory exists. *)
Lemma download_stores_dir u f bytes w :
  reaches_disk env pf net u f bytes ->
  (path_exists w (uploads_dir pf) = false -> mkdir_error pf (uploads_dir pf) = None) ->
  write_error pf (local_path pf f) = None ->
  path_exists (snd (downloadStrapiImage env pf net (Some u) w)) (uploads_dir pf) = true.
Proof.
  intros Hreach Hmkdir Hwrite.
  destruct (download_stores u f bytes w Hreach Hmkdir Hwrite) as (_ & Hfiles & Hdirs & _).
  unfold path_exists at 1. rewrite Hfiles, Hdirs.
  destruct (path_exists w (uploads_dir pf)) eqn:Hex.
  - unfold path_exists in Hex. apply orb_true_iff in Hex as [Hd | Hfl].
    + rewrite Hd. reflexivity.
    + apply orb_true_iff. right. apply bool_decide_eq_true.
      apply bool_decide_eq_true in Hfl. rewrite lookup_insert_is_Some.
      destruct (decide (local_path pf f = uploads_dir pf)); auto.
  - apply orb_true_iff. left. apply bool_decide_eq_true.
    apply elem_of_union_l, elem_of_union_l, elem_of_singleton. reflexivity.
Qed.

(** X20. The cache is keyed by file name alone: when two images whose URLs
    end in the same segment are downloaded one after the other, both calls
    return the same local path and the file holds the bytes of the second. *)
Theorem last_writer_wins u1 u2 f bytes1 bytes2 w :
  reaches_disk env pf net u1 f bytes1 ->
  reaches_disk env pf net u2 f bytes2 ->
  mkdir_error pf (uploads_dir pf) = None ->
  write_error pf (local_path pf f) = None ->
  let first := downloadStrapiImage env pf net (Some u1) w in
  let second := downloadStrapiImage env pf net (Some u2) (snd first) in
  fst first = Returned (Some ("/uploads/" +:+ f)) ∧
  fst second = Returned (Some ("/uploads/" +:+ f)) ∧
  fs_files (snd second) = <[ local_path pf f := bytes2 ]> (fs_files w) ∧
  fs_dirs (snd second) = fs_dirs (snd first).
Proof.
  intros H1 H2 Hmkdir Hwrite first second.
  destruct (download_stores u1 f bytes1 w H1 (λ _, Hmkdir) Hwrite) as (Hv1 & Hf1 & _ & _).
  pose proof (download_stores_dir u1 f bytes1 w H1 (λ _, Hmkdir) Hwrite) as Hex.
  destruct (download_stores u2 f bytes2 (snd first) H2 (λ _, Hmkdir) Hwrite)
    as (Hv2 & Hf2 & Hd2 & _).
  fold first in Hv1, Hf1, Hex. fold second in Hv2, Hf2, Hd2.
  rewrite Hex in Hd2. rewrite Hf2, Hf1, insert_insert_eq. auto.
Qed.

(** X21. Downloading the same image again changes nothing: the second call
    returns what the first returned and leaves the files and directories as
    the first left them. *)
Theorem repeated_download_is_idempotent u f bytes w :
  reaches_disk env pf net u f bytes ->
  mkdir_error pf (uploads_dir pf) = None ->
  write_error pf (local_path pf f) = None ->
  let first := downloadStrapiImage env pf net (Some u) w in
  let second := downloadStrapiImage env pf net (Some u) (snd first) in
  fst second = fst first ∧
  fs_files (snd second) = fs_files (snd first) ∧
  fs_dirs (snd second) = fs_dirs (snd first).
Proof.
  intros H Hmkdir Hwrite first second.
  destruct (download_stores u f bytes w H (λ _, Hmkdir) Hwrite) as (Hv1 & Hf1 & _ & _).
  pose proof (download_stores_dir u f bytes w H (λ _, Hmkdir) Hwrite) as Hex.
  destruct (download_stores u f bytes (snd first) H (λ _, Hmkdir) Hwrite)
    as (Hv2 & Hf2 & Hd2 & _).
  fold first in Hv1, Hf1, Hex. fold second in Hv2, Hf2, Hd2.
  rewrite Hex in Hd2. rewrite Hv2, Hv1, Hf2, Hf1, insert_insert_eq. auto.
Qed.

(** X12. [downloadStrapiImage] calls [fetch] at most once, and that request
    goes to the resolved URL with no header at all, so without the API
    token, and without an abort signal. *)
Theorem image_request_is_anonymous url w :
  (no_network w (snd (downloadStrapiImage env pf net url w)) ∨
   issued w (snd (downloadStrapiImage env pf net url w))
     (image_request env (default "" url))) ∧
  (∀ rq, issued w (snd (downloadStrapiImage env pf net url w)) rq ->
         req_url rq = resolved env (default "" url) ∧
         req_headers rq !! "Authorization" = None ∧
         req_headers rq = ∅ ∧
         req_timeout rq = None).
Proof.
  pose proof (downloadStrapiImage_requests env pf net url w) as Hreq.
  split; [exact Hreq |]. intros rq Hrq.
  destruct Hreq as [Hn | Hone].
  - destruct (no_network_not_issued _ _ _ Hn Hrq).
  - rewrite (issued_unique _ _ _ _ Hrq Hone). cbn. auto.
Qed.

(** X13. [downloadStrapiImage] never removes anything: every directory and
    every file name that existed still exists, the only directories it can
    add are the upload directory and its ancestors, and the console and the
    list of requests only grow at the end. *)
Theorem download_frame url w :
  fs_dirs w ⊆ fs_dirs (snd (downloadStrapiImage env pf net url w)) ∧
  fs_dirs (snd (downloadStrapiImage env pf net url w))
    ⊆ {[ uploads_dir pf ]} ∪ path_ancestors pf (uploads_dir pf) ∪ fs_dirs w ∧
  dom (fs_files w) ⊆ dom (fs_files (snd (downloadStrapiImage env pf net url w))) ∧
  console w `prefix_of` console (snd (downloadStrapiImage env pf net url w)) ∧
  requests w `prefix_of` requests (snd (downloadStrapiImage env pf net url w)).
Proof.
  unfold downloadStrapiImage, uploads_dir. async_unfold.
  async_cases; cbn; rewrite ?dom_insert;
    (split; [set_solver |]); (split; [set_solver |]); (split; [set_solver |]);
    split; repeat apply prefix_app_r; reflexivity.
Qed.

(** X14. [downloadStrapiImage] writes at most one file. When it writes, the
    file is [path.join(uploadsDir, f)] where [f] is the last segment of the
    path of the resolved URL, and [f] is non-empty and contains no slash. *)
Theorem writes_one_file_under_uploads url w :
  fs_files (snd (downloadStrapiImage env pf net url w)) = fs_files w ∨
  ∃ urlPath f bytes,
    url_pathname pf (resolved env (default "" url)) = Returned urlPath ∧
    pop (split "/" urlPath) = Some f ∧
    f ≠ "" ∧
    has_char "/" f = false ∧
    fs_files (snd (downloadStrapiImage env pf net url w))
      = <[ local_path pf f := bytes ]> (fs_files w).
Proof.
  unfold downloadStrapiImage, resolved, local_path, uploads_dir. async_unfold.
  async_cases; cbn; auto; right;
    match goal with
    | H : negb (truthy (pop (split "/" ?p))) = false |- _ =>
        apply negb_false_iff, truthy_default in H; destruct H as [Hpop Hne];
        destruct (split_last_segment "/" p) as (f & Hf & Hfree & _);
        rewrite Hf in Hpop, Hne |- *; cbn [from_option id] in *;
        exists p, f; eexists; repeat split; eauto
    end.
Qed.

(** X16. In a production build, when the image cannot be had from the network
    (connection error, a status outside 200-299, or a body that cannot be
    read), the result is the resolved remote URL and the file system is
    untouched, whatever the URL parser says. *)
Theorem unavailable_image_falls_back u w :
  production_build env = true ->
  u ≠ "" ->
  image_unavailable (net (image_request env u)) = true ->
  fst (downloadStrapiImage env pf net (Some u) w) = Returned (Some (resolved env u)) ∧
  no_filesystem_write w (snd (downloadStrapiImage env pf net (Some u) w)).
Proof.
  intros Hprod Hu Hnet.
  apply production_build_true in Hprod as [Hdev Hprod].
  unfold image_unavailable, image_request, resolved, no_filesystem_write in *.
  unfold downloadStrapiImage.
  rewrite (truthy_nonempty u Hu), Hdev, Hprod. cbn [negb from_option id].
  async_unfold. cbn beta iota.
  destruct (url_pathname pf _) as [urlPath | e]; cbn [fst snd]; [| auto].
  destruct (negb (truthy (pop (split "/" urlPath)))); cbn [fst snd]; [auto |].
  destruct (net _) as [e | elapsed r]; cbn [fst snd]; [auto |].
  destruct (ok r); cbn [negb orb fst snd] in *; [| auto].
  destruct (arrayBuffer r); [discriminate | cbn; auto].
Qed.

(** X15. In a production build, when the resolved URL does not parse, or its
    path is empty or ends in a slash, no request is made and nothing is
    written: the resolved URL is returned as it is. *)
Theorem unusable_url_skips_the_network u w :
  production_build env = true ->
  u ≠ "" ->
  ((∃ e, url_pathname pf (resolved env u) = Thrown e) ∨
   (∃ d, url_pathname pf (resolved env u) = Returned (d +:+ "/")) ∨
   url_pathname pf (resolved env u) = Returned "") ->
  fst (downloadStrapiImage env pf net (Some u) w) = Returned (Some (resolved env u)) ∧
  no_network w (snd (downloadStrapiImage env pf net (Some u) w)) ∧
  no_filesystem_write w (snd (downloadStrapiImage env pf net (Some u) w)).
Proof.
  intros Hprod Hu Hurl.
  apply production_build_true in Hprod as [Hdev Hprod].
  unfold resolved, no_filesystem_write, no_network in *.
  unfold downloadStrapiImage.
  rewrite (truthy_nonempty u Hu), Hdev, Hprod. cbn [negb from_option id].
  async_unfold. cbn beta iota.
  destruct Hurl as [(e & ->) | [(d & ->) | ->]]; cbn [fst snd]; [auto | | cbn; auto].
  destruct (split_trailing_separator "/" d) as (l & -> & Hl).
  unfold pop. rewrite last_snoc. cbn. auto.
Qed.



(** X10. Whenever the production branch is not taken, which includes the
    final fall-through for a mode that is neither development nor
    production, [downloadStrapiImage] returns [getStrapiMedia url] and does
    no network or file system I/O. *)
Theorem outside_production_no_caching url w :
  production_build env = false ->
  fst (downloadStrapiImage env pf net url w) = Returned (getStrapiMedia env url) ∧
  no_network w (snd (downloadStrapiImage env pf net url w)) ∧
  no_filesystem_write w (snd (downloadStrapiImage env pf net url w)).
Proof.
  unfold production_build, downloadStrapiImage, getStrapiMedia,
    no_network, no_filesystem_write.
  intros Hmode. async_unfold.
  destruct (truthy url); cbn [negb]; destruct (DEV env); cbn in *; auto.
  rewrite Hmode. cbn. auto.
Qed.


(** X19. When the resolved URL begins with [http], a result that does not
    begin with [http] is a path [/uploads/<f>] for which the network did
    answer with a 2xx status and readable bytes, and those bytes are in the
    file [path.join(uploadsDir, f)] when the call returns. *)
Theorem local_path_means_cached url r w :
  startsWith (resolved env (default "" url)) "http" = true ->
  fst (downloadStrapiImage env pf net url w) = Returned (Some r) ->
  startsWith r "http" = false ->
  ∃ f bytes elapsed resp,
    r = "/uploads/" +:+ f ∧
    net (image_request env (default "" url)) = NetResponds elapsed resp ∧
    ok resp = true ∧
    arrayBuffer resp = Returned bytes ∧
    fs_files (snd (downloadStrapiImage env pf net url w)) !! local_path pf f
      = Some bytes.
Proof.
  unfold image_request, local_path, uploads_dir, downloadStrapiImage,
    getStrapiMedia, resolved.
  async_unfold. async_cases; intros Hres [= <-] Hnot; try congruence;
    do 4 eexists;
    repeat (split; [first [reflexivity | eassumption
                          | apply negb_false_iff; assumption] |]);
    cbn; apply lookup_insert_eq.
Qed.
End ImageFacts.

(** X9. [getStrapiMedia] returns [null] exactly when the input is null,
    absent or empty, or when it does not begin with [http] and no base URL is
    configured; any other result is a non-empty string, the one
    [downloadStrapiImage] takes for the remote URL in production. *)
Theorem getStrapiMedia_null_exactly env url :
  (getStrapiMedia env url = None <->
   truthy url = false ∨
   (startsWith (default "" url) "http" = false ∧ truthy (STRAPI_URL env) = false)) ∧
  (∀ r, getStrapiMedia env url = Some r ->
        truthy url = true ∧ r = resolved env (default "" url) ∧ r ≠ "").
Proof.
  unfold getStrapiMedia, resolved.
  destruct (truthy url) eqn:Hurl; cbn [negb].
  2: { split; [split; auto |]. discriminate. }
  destruct (truthy_default url Hurl) as [_ Hne].
  destruct (startsWith (default "" url) "http") eqn:Habs.
  - split.
    + split; [discriminate |]. intros [H | [H _]]; discriminate.
    + intros r [= <-]. auto.
  - destruct (truthy (STRAPI_URL env)) eqn:Hbase; cbn [negb].
    + split.
      * split; [discriminate |]. intros [H | [_ H]]; discriminate.
      * intros r [= <-]. repeat split.
        destruct (STRAPI_URL env) as [[| c b] |]; discriminate.
    + split; [split; auto |]. discriminate.
Qed.

(** X8. [urlPath.split('/').pop()] is always defined, contains no slash, and
    is what follows the last slash of [urlPath] (all of [urlPath] when it has
    no slash). *)
Theorem filename_follows_last_slash (urlPath : string) :
  ∃ f, pop (split "/" urlPath) = Some f ∧
       has_char "/" f = false ∧
       (urlPath = f ∨ ∃ d, urlPath = d +:+ "/" +:+ f).
Proof.
  destruct (split_last_segment "/" urlPath) as (f & Hf & Hfree & Hshape).
  exists f. split; [exact Hf |]. split; [exact Hfree |].
  destruct Hshape as [[_ ->] | (d & -> & _)]; [auto |]. right. exists d. reflexivity.
Qed.

(** * Worked scenarios, continued *)

Ltac sample_reaches_disk :=
  unfold reaches_disk;
  repeat match goal with
         | |- _ ∧ _ => split
         | |- ∃ _, _ => eexists
         | |- _ ≠ _ => discriminate
         | |- _ = _ => reflexivity
         end.

Lemma fetch_request_shape_witness :
  ∃ rq,
    requests (snd (fetchStrapi (T := string) cmsProduction
                     (reachable (Returned emptyCollection)) "menu-items" emptyWorld))
      = [rq] ∧
    req_headers rq !! "Authorization" = Some "Bearer s3cr3t" ∧
    req_timeout rq = Some 10000.
Proof.
  destruct (fetch_request_shape (T := string) cmsProduction
              (reachable (Returned emptyCollection)) (reachable (Returned nullSingle))
              "menu-items" emptyWorld eq_refl)
    as [(rq & query & Hrq & _ & Ht & _ & Hauth & _) _].
  exists rq. split; [exact Hrq |]. split; [exact Hauth | exact Ht].
Defined.


Lemma production_console_is_terse_witness :
  (text <$> console (snd (fetchStrapi (T := string) cmsProduction
                            unreachable "menu-items" emptyWorld)))
    = ["Using fallback content for menu-items (Strapi unavailable)"] ∧
  console (snd (fetchStrapi (T := string) cmsProduction
                  (reachable (Returned emptyCollection)) "menu-items" emptyWorld)) = [].
Proof.
  split.
  - destruct (production_console_is_terse (T := string) cmsProduction
                unreachable unreachable "menu-items" emptyWorld eq_refl) as (H & _ & _).
    erewrite H by reflexivity. reflexivity.
  - destruct (production_console_is_terse (T := string) cmsProduction
                (reachable (Returned emptyCollection)) unreachable
                "menu-items" emptyWorld eq_refl) as (H & _ & _).
    erewrite H by reflexivity. reflexivity.
Defined.


Lemma token_only_reaches_the_header_witness :
  fst (fetchStrapi (T := string) (with_token (Some "other") cmsProduction)
         (failing 401 "Unauthorized") "menu-items" emptyWorld)
    = fst (fetchStrapi (T := string) cmsProduction
             (failing 401 "Unauthorized") "menu-items" emptyWorld).
Proof.
  apply (token_only_reaches_the_header (T := string) cmsProduction
           (failing 401 "Unauthorized") (failing 401 "Unauthorized")
           (Some "other") "menu-items" emptyWorld);
    intros rq rq' _; reflexivity.
Defined.

Lemma outside_production_no_caching_witness :
  production_build cmsStaging = false ∧
  fst (downloadStrapiImage cmsStaging samplePlatform (reachable (Returned tt))
         (Some "/uploads/plate.jpg") emptyWorld)
    = Returned (Some "https://cms.example.com/uploads/plate.jpg") ∧
  requests (snd (downloadStrapiImage cmsStaging samplePlatform (reachable (Returned tt))
                   (Some "/uploads/plate.jpg") emptyWorld)) = [].
Proof.
  destruct (outside_production_no_caching cmsStaging samplePlatform
              (reachable (Returned tt)) (Some "/uploads/plate.jpg") emptyWorld eq_refl)
    as (Hv & Hn & _).
  split; [reflexivity |]. split; [exact Hv | exact Hn].
Defined.


Lemma unusable_url_skips_the_network_witness :
  fst (downloadStrapiImage cmsProduction samplePlatform (reachable (Returned tt))
         (Some "/uploads/") emptyWorld)
    = Returned (Some "https://cms.example.com/uploads/") ∧
  requests (snd (downloadStrapiImage cmsProduction samplePlatform (reachable (Returned tt))
                   (Some "/uploads/") emptyWorld)) = [].
Proof.
  destruct (unusable_url_skips_the_network cmsProduction samplePlatform
              (reachable (Returned tt)) "/uploads/" emptyWorld eq_refl)
    as (Hv & Hn & _).
  - discriminate.
  - right; left. exists "/uploads". reflexivity.
  - split; [exact Hv | exact Hn].
Defined.

Lemma unavailable_image_falls_back_witness :
  fst (downloadStrapiImage cmsProduction samplePlatform (J := unit)
         (failing 404 "Not Found") (Some "/uploads/plate.jpg") emptyWorld)
    = Returned (Some "https://cms.example.com/uploads/plate.jpg") ∧
  fs_files (snd (downloadStrapiImage cmsProduction samplePlatform (J := unit)
                   (failing 404 "Not Found") (Some "/uploads/plate.jpg") emptyWorld)) = ∅.
Proof.
  destruct (unavailable_image_falls_back cmsProduction samplePlatform (J := unit)
              (failing 404 "Not Found") "/uploads/plate.jpg" emptyWorld eq_refl)
    as (Hv & _ & Hfiles).
  - discriminate.
  - reflexivity.
  - split; [exact Hv | exact Hfiles].
Defined.



Lemma local_path_means_cached_witness :
  ∃ f bytes,
    "/uploads/plate.jpg" = "/uploads/" +:+ f ∧
    fs_files (snd (downloadStrapiImage cmsProduction samplePlatform
                     (reachable (Returned tt)) (Some "/uploads/plate.jpg") emptyWorld))
      !! local_path samplePlatform f = Some bytes.
Proof.
  destruct (local_path_means_cached cmsProduction samplePlatform
              (reachable (Returned tt)) (Some "/uploads/plate.jpg") "/uploads/plate.jpg"
              emptyWorld)
    as (f & bytes & elapsed & resp & Hr & _ & _ & _ & Hfile);
    [reflexivity | reflexivity | reflexivity |].
  exists f, bytes. split; [exact Hr | exact Hfile].
Defined.

Lemma last_writer_wins_witness :
  fs_files
    (snd (downloadStrapiImage cmsProduction samplePlatform (echoing (Returned tt))
            (Some "/uploads/b/plate.jpg")
            (snd (downloadStrapiImage cmsProduction samplePlatform (echoing (Returned tt))
                    (Some "/uploads/a/plate.jpg") emptyWorld))))
    !! "/srv/site/public/uploads/plate.jpg"
    = Some (list_byte_of_string "https://cms.example.com/uploads/b/plate.jpg").
Proof.
  destruct (last_writer_wins cmsProduction samplePlatform (echoing (Returned tt))
              "/uploads/a/plate.jpg" "/uploads/b/plate.jpg" "plate.jpg"
              (list_byte_of_string "https://cms.example.com/uploads/a/plate.jpg")
              (list_byte_of_string "https://cms.example.com/uploads/b/plate.jpg")
              emptyWorld)
    as (_ & _ & Hfiles & _).
  - sample_reaches_disk.
  - sample_reaches_disk.
  - reflexivity.
  - reflexivity.
  - rewrite Hfiles. apply lookup_insert_eq.
Defined.

Lemma repeated_download_is_idempotent_witness :
  fs_files
    (snd (downloadStrapiImage cmsProduction samplePlatform (reachable (Returned tt))
            (Some "/uploads/plate.jpg")
            (snd (downloadStrapiImage cmsProduction samplePlatform (reachable (Returned tt))
                    (Some "/uploads/plate.jpg") emptyWorld))))
  = fs_files
      (snd (downloadStrapiImage cmsProduction samplePlatform (reachable (Returned tt))
              (Some "/uploads/plate.jpg") emptyWorld)).
Proof.
  destruct (repeated_download_is_idempotent cmsProduction samplePlatform
              (reachable (Returned tt)) "/uploads/plate.jpg" "plate.jpg" sampleBytes
              emptyWorld)
    as (_ & Hfiles & _).
  - sample_reaches_disk.
  - reflexivity.
  - reflexivity.
  - exact Hfiles.
Defined.
